(** * PerfKitBenchmarker: placement groups and the GCE Windows virtual machine

    A shallow embedding of
    - [perfkitbenchmarker/placement_group.py]
    - [perfkitbenchmarker/providers/gcp/gce_windows_virtual_machine.py]

    Python dictionaries are finite maps ([gmap]) keyed by strings, in-place
    mutation is explicit state passing, and raised exceptions are the [Raise]
    branch of [PyResult].  The definitions come first, the theorems about
    them follow in the second half of the file. *)

From Stdlib Require Import String Ascii ZArith List.
From stdpp Require Import gmap strings list fin_maps.

Local Open Scope string_scope.

(* ===================================================================== *)
(** ** Python values, exceptions, results                                 *)
(* ===================================================================== *)

Module Py.

(** Object identities: the address of an object in the store. *)
Definition loc := positive.

(** The Python values that occur in the two modules: [None], booleans,
    integers, strings, lists of strings (the [os_types] collections) and
    references to objects. *)
Inductive PyValue : Type :=
| PyNone
| PyBool (b : bool)
| PyInt (z : Z)
| PyStr (s : string)
| PyStrList (l : list string)
| PyRef (a : loc).

#[global] Instance PyValue_eq_dec : EqDecision PyValue.
Proof. solve_decision. Defined.

(** Truth value of an object as tested by [if x:]. *)
Definition truthy (v : PyValue) : bool :=
  match v with
  | PyNone => false
  | PyBool b => b
  | PyInt z => negb (Z.eqb z 0)
  | PyStr s => negb (String.eqb s EmptyString)
  | PyStrList l => match l with [] => false | _ => true end
  | PyRef _ => true
  end.

(** [a == b].  Booleans compare as the integers 0 and 1; values of
    different kinds are otherwise unequal. *)
Definition py_eq (a b : PyValue) : bool :=
  match a, b with
  | PyNone, PyNone => true
  | PyBool x, PyBool y => Bool.eqb x y
  | PyBool x, PyInt z | PyInt z, PyBool x => Z.eqb z (if x then 1 else 0)
  | PyInt x, PyInt y => Z.eqb x y
  | PyStr x, PyStr y => String.eqb x y
  | PyStrList x, PyStrList y => bool_decide (x = y)
  | PyRef x, PyRef y => bool_decide (x = y)
  | _, _ => false
  end.

(** [x in l] for a list [l]: some element equals [x]. *)
Definition py_in (x : PyValue) (l : list PyValue) : bool :=
  existsb (py_eq x) l.

(** [needle in hay] for two strings: [needle] occurs as a substring. *)
Fixpoint is_substring (needle hay : string) : bool :=
  String.prefix needle hay ||
  match hay with
  | EmptyString => false
  | String _ hay' => is_substring needle hay'
  end.

(** Exceptions, by class. *)
Inductive PyExn : Type :=
| AttributeError (name : string)
| KeyError (key : PyValue)
| TypeError (msg : string)
| NotImplementedError (base_class cloud : string)
| ConfigValidationError (invalid_options : list string)
| IOError
| RemoteCommandError (cmd : string)
| GceUnexpectedWindowsAdapterOutputError (msg : string)
| GceDriverDoesntSupportFeatureError (msg : string)
| ResourceLifecycleError (operation : string)
| OtherError (msg : string).

(** Outcome of a call: a returned value or a raised exception. *)
Inductive PyResult (A : Type) : Type :=
| Ok (a : A)
| Raise (e : PyExn).
Arguments Ok {A} a.
Arguments Raise {A} e.

(** A dictionary with string keys. *)
Abbreviation PyDict := (gmap string PyValue).

(** [d.update(other)]: every entry of [other] is written into [d]; entries
    of [d] under other keys stay. *)
Definition dict_update {V : Type} (d other : gmap string V) : gmap string V :=
  other ∪ d.

(** The object store: the attribute dictionary of every live object. *)
Abbreviation Heap := (gmap loc PyDict).

(** *** Stateful code that may raise

    A method that mutates objects and may raise is a function from the state
    before to an outcome and the state after; a raised exception keeps the
    mutations made so far. *)
Definition StErr (S A : Type) : Type := S -> PyResult A * S.

Definition ret {S A} (a : A) : StErr S A := fun st => (Ok a, st).

Definition raise {S A} (e : PyExn) : StErr S A := fun st => (Raise e, st).

Definition bind {S A B} (m : StErr S A) (k : A -> StErr S B) : StErr S B :=
  fun st =>
    match m st with
    | (Ok a, st') => k a st'
    | (Raise e, st') => (Raise e, st')
    end.

(** [try: body / except IOError: handler]. *)
Definition try_except_IOError {S A} (body handler : StErr S A) : StErr S A :=
  fun st =>
    match body st with
    | (Raise IOError, st') => handler st'
    | other => other
    end.

(** A new object with no attributes, at an address not in use. *)
Definition alloc : StErr Heap loc :=
  fun h => let a := fresh (dom h) in (Ok a, <[a := ∅]> h).

(** [obj.name] for an instance attribute. *)
Definition getattr_obj (obj : loc) (name : string) : StErr Heap PyValue :=
  fun h =>
    match h !! obj ≫= (fun d => d !! name) with
    | Some v => (Ok v, h)
    | None => (Raise (AttributeError name), h)
    end.

(** [obj.name = v]. *)
Definition setattr_obj (obj : loc) (name : string) (v : PyValue) : StErr Heap unit :=
  fun h => (Ok tt, alter (fun d => <[name := v]> d) obj h).

(** [del obj]: the object leaves the store. *)
Definition dispose (obj : loc) : StErr Heap unit :=
  fun h => (Ok tt, delete obj h).

End Py.

Export Py.

Notation "x <~ m ;; k" := (bind m (fun x => k))
  (at level 100, m at next level, right associativity).
Notation "m ;;; k" := (bind m (fun _ => k))
  (at level 100, right associativity).

(* ===================================================================== *)
(** ** absl flags                                                         *)
(* ===================================================================== *)

Module Flags.

(** One defined flag: its current value and whether it was given on the
    command line ([.present]). *)
Record Flag : Type := { flag_value : PyValue; flag_present : bool }.

#[global] Instance Flag_eq_dec : EqDecision Flag.
Proof. solve_decision. Defined.

(** A [flags.FlagValues] object: the defined flags by name. *)
Abbreviation FlagValues := (gmap string Flag).

(** [flags.DEFINE_string(name, default, help)] on the registry [fv]. *)
Definition DEFINE_string (name : string) (default : PyValue) (help : string)
    (fv : FlagValues) : FlagValues :=
  <[name := {| flag_value := default; flag_present := false |}]> fv.

(** Parsing [--name=arg] for a defined string flag. *)
Definition parse_string_flag (name arg : string) (fv : FlagValues) : FlagValues :=
  match fv !! name with
  | Some _ => <[name := {| flag_value := PyStr arg; flag_present := true |}]> fv
  | None => fv
  end.

(** [fv.name]: the value of the flag, [AttributeError] for an undefined one. *)
Definition getattr (fv : FlagValues) (name : string) : PyResult PyValue :=
  match fv !! name with
  | Some f => Ok (flag_value f)
  | None => Raise (AttributeError name)
  end.

(** The flag [name] was explicitly set to the string [F]. *)
Definition explicitly_set (fv : FlagValues) (name F : string) : Prop :=
  fv !! name = Some {| flag_value := PyStr F; flag_present := true |}.

(** The flag [name] is defined, was not set and still holds [default]. *)
Definition not_set (fv : FlagValues) (name : string) (default : PyValue) : Prop :=
  fv !! name = Some {| flag_value := default; flag_present := false |}.

End Flags.

(* ===================================================================== *)
(** ** The collaborators of [placement_group.py]                          *)
(* ===================================================================== *)

(** [spec.GetSpecClass] and [resource.GetResourceClass]. *)
Module Registry.

(** A class as the registry sees it: its name, the base class it derives
    from and its [CLOUD] class constant ([None] when it declares none). *)
Record ClassDef : Type :=
  { cls_name : string; cls_base : string; cls_CLOUD : option string }.

#[global] Instance ClassDef_eq_dec : EqDecision ClassDef.
Proof. solve_decision. Defined.

Abbreviation Index := (gmap (string * string) ClassDef).

(** Modelled from the spec: the registry index, missing from the sources
    ([spec.py] and [resource.py]).  "The registry indexes all
    currently-defined subclasses of [base_class] by that constant": a class
    that declares a cloud identifier is entered under (base class, cloud). *)
Definition register (index : Index) (c : ClassDef) : Index :=
  match cls_CLOUD c with
  | Some cloud => <[(cls_base c, cloud) := c]> index
  | None => index
  end.

(** Modelled from the spec: the index over the classes defined so far, in
    definition order. *)
Definition build_index (classes : list ClassDef) : Index :=
  fold_left register classes ∅.

(** Modelled from the spec: [Resolve(base_class, cloud_id)], which "fails
    with a NotImplementedError-class error carrying [base_class] and
    [cloud_id] when no match exists". *)
Definition Resolve (index : Index) (base_class cloud : string) : PyResult ClassDef :=
  match index !! (base_class, cloud) with
  | Some c => Ok c
  | None => Raise (NotImplementedError base_class cloud)
  end.

(** Modelled from the spec: [spec.GetSpecClass(base_class, CLOUD=cloud)]. *)
Definition GetSpecClass := Resolve.

(** Modelled from the spec: [resource.GetResourceClass(base_class, CLOUD=cloud)]. *)
Definition GetResourceClass := Resolve.

(** [c] is a concrete subclass of [base_class] registered for [cloud]. *)
Definition declares (base_class cloud : string) (c : ClassDef) : Prop :=
  cls_base c = base_class /\ cls_CLOUD c = Some cloud.

(** The registry invariant: at most one class per (base class, cloud). *)
Definition unique_registration (classes : list ClassDef) : Prop :=
  forall c1 c2 base_class cloud,
    c1 ∈ classes -> c2 ∈ classes ->
    declares base_class cloud c1 -> declares base_class cloud c2 -> c1 = c2.

End Registry.

(** [option_decoders] and the decoding half of [spec.BaseSpec]. *)
Module OptionDecoders.

(** Modelled from the spec: the decoder classes of [option_decoders.py],
    missing from the sources, by "expected value type".  [StringDecoder] is
    the one [placement_group.py] names; the other two stand for decoders a
    parent class may declare. *)
Inductive DecoderClass : Type :=
| StringDecoder
| BooleanDecoder
| IntDecoder.

Abbreviation Constructions := (gmap string (DecoderClass * PyDict)).

(** Modelled from the spec: the [none_ok] constructor argument of a
    decoder ([option_decoders.py] is missing from the sources); absent
    means not allowed. *)
Definition none_ok (kwargs : PyDict) : bool :=
  match kwargs !! "none_ok" with
  | Some v => truthy v
  | None => false
  end.

(** Modelled from the spec: a present raw value is accepted when it has the
    decoder's expected type. *)
Definition coerce (cls : DecoderClass) (raw : PyValue) : option PyValue :=
  match cls, raw with
  | StringDecoder, PyStr s => Some (PyStr s)
  | BooleanDecoder, PyBool b => Some (PyBool b)
  | IntDecoder, PyInt z => Some (PyInt z)
  | _, _ => None
  end.

(** Modelled from the spec: [Decode(raw_value, component_full_name,
    flag_values)] of a decoder of class [cls] built with the keyword
    arguments [kwargs].  "[raw_value] may
    be absent (None) only if constructed with [none_ok=True]; otherwise
    absence fails with a required-option error naming
    [component_full_name]"; a present value of the wrong type fails with a
    type-mismatch error.  Both are configuration validation errors. *)
Definition Decode (cls : DecoderClass) (kwargs : PyDict)
    (raw_value : option PyValue) (component_full_name : string) : PyResult PyValue :=
  match raw_value with
  | None | Some PyNone =>
      if none_ok kwargs then Ok PyNone
      else Raise (ConfigValidationError [component_full_name])
  | Some raw =>
      match coerce cls raw with
      | Some v => Ok v
      | None => Raise (ConfigValidationError [component_full_name])
      end
  end.

Definition is_raise {A} (r : PyResult A) : bool :=
  match r with Raise _ => true | Ok _ => false end.

Definition ok_value {A} (r : PyResult A) : option A :=
  match r with Ok a => Some a | Raise _ => None end.

(** Modelled from the spec: step 4 of [Spec.FromConfig], "for each declared
    option, construct its decoder and decode the (possibly flag-overridden)
    raw value". *)
Definition decode_options (decoders : Constructions) (config : PyDict)
    : gmap string (PyResult PyValue) :=
  map_imap (fun option c => Some (Decode c.1 c.2 (config !! option) option)) decoders.

(** Modelled from the spec: the options whose decoding failed ("collect all
    decode errors rather than stopping at the first"). *)
Definition invalid_options (decoders : Constructions) (config : PyDict) : gset string :=
  dom (filter (fun kr => is_raise kr.2 = true) (decode_options decoders config)).

(** Modelled from the spec: steps 4 and 5, "fail with an aggregate error
    listing every invalid option if any failed", else "bind all decoded
    values as attributes on the new Spec instance" (here: return the
    instance's attribute dictionary).  Nothing is returned on failure. *)
Definition DecodeAndInit (decoders : Constructions) (config : PyDict) : PyResult PyDict :=
  match elements (invalid_options decoders config) with
  | [] => Ok (omap ok_value (decode_options decoders config))
  | invalid => Raise (ConfigValidationError invalid)
  end.

End OptionDecoders.

(* ===================================================================== *)
(** ** perfkitbenchmarker/placement_group.py                              *)
(* ===================================================================== *)

Module PlacementGroup.
Import Flags Registry OptionDecoders.

Definition PLACEMENT_GROUP_CLUSTER := "cluster".
Definition PLACEMENT_GROUP_CLUSTER_IF_SUPPORTED := "cluster_if_supported".
Definition PLACEMENT_GROUP_SPREAD := "spread".
Definition PLACEMENT_GROUP_SPREAD_IF_SUPPORTED := "spread_if_supported".
Definition PLACEMENT_GROUP_NONE := "none".

Definition PLACEMENT_GROUP_OPTIONS : gset string :=
  {[ PLACEMENT_GROUP_CLUSTER; PLACEMENT_GROUP_CLUSTER_IF_SUPPORTED;
     PLACEMENT_GROUP_SPREAD; PLACEMENT_GROUP_SPREAD_IF_SUPPORTED;
     PLACEMENT_GROUP_NONE ]}.

(** The module-level [flags.DEFINE_string('placement_group_style', None, ...)]
    applied to the process-wide [FLAGS]. *)
Definition define_module_flags (FLAGS : FlagValues) : FlagValues :=
  DEFINE_string "placement_group_style" PyNone
    "The vm placement group option to use. Default set by cloud." FLAGS.

(** *** [_ApplyFlags]: state, events and the small monad it runs in *)

(** What [_ApplyFlags] does, in order: the call of the parent class's
    [_ApplyFlags] (with the dictionary contents and flag values it received)
    and the item assignments on [config_values]. *)
Inductive Event : Type :=
| EvSuperApplyFlags (config : PyDict) (flag_values : FlagValues)
| EvSetItem (key : string) (value : PyValue).

(** The [config_values] dictionary, which the method mutates in place, and
    the events so far. *)
Record ApplyState : Type := { config_values : PyDict; log : list Event }.

(** A computation over [ApplyState] that returns or raises. *)
Abbreviation M := (StErr ApplyState).

(** [config_values[key] = value]. *)
Definition setitem (key : string) (value : PyValue) : M unit :=
  fun st =>
    (Ok tt, {| config_values := <[key := value]> (config_values st);
               log := log st ++ [EvSetItem key value] |}).

(** Reading an attribute of a [FlagValues] object. *)
Definition read_flag (fv : FlagValues) (name : string) : M PyValue :=
  fun st => (getattr fv name, st).

Section BasePlacementGroupSpec.

(** [spec.BaseSpec._ApplyFlags], the parent implementation: given the
    contents of [config_values] and the flag values it returns or raises,
    and leaves new contents in the dictionary. *)
Variable super_ApplyFlags : PyDict -> FlagValues -> PyResult unit * PyDict.

(** [spec.BaseSpec._GetOptionDecoderConstructions()], the parent's result:
    a fresh dictionary from option name to (decoder class, keyword
    arguments). *)
Variable super_GetOptionDecoderConstructions : Constructions.

(** [super(BasePlacementGroupSpec, cls)._ApplyFlags(config_values, flag_values)] *)
Definition call_super_ApplyFlags (flag_values : FlagValues) : M unit :=
  fun st =>
    let '(r, config') := super_ApplyFlags (config_values st) flag_values in
    (r, {| config_values := config';
           log := log st ++ [EvSuperApplyFlags (config_values st) flag_values] |}).

(** [BasePlacementGroupSpec._ApplyFlags(cls, config_values, flag_values)].
    [FLAGS] is the module-level [flags.FLAGS]; [flag_values] is the
    argument. *)
Definition _ApplyFlags (FLAGS flag_values : FlagValues) : M unit :=
  call_super_ApplyFlags flag_values ;;;
  guard <~ read_flag FLAGS "placement_group_style" ;;
  if truthy guard then
    v <~ read_flag FLAGS "placement_group_style" ;;
    setitem "placement_group_style" v
  else ret tt.

(** Running the method on a dictionary: outcome and final contents. *)
Definition run_ApplyFlags (FLAGS flag_values : FlagValues) (config : PyDict)
    : PyResult unit * PyDict :=
  let '(r, st) := _ApplyFlags FLAGS flag_values {| config_values := config; log := [] |} in
  (r, config_values st).

(** [BasePlacementGroupSpec._GetOptionDecoderConstructions(cls)]. *)
Definition _GetOptionDecoderConstructions : Constructions :=
  let result := super_GetOptionDecoderConstructions in
  let result := dict_update result
    {[ "zone" := (StringDecoder, ({[ "none_ok" := PyBool true ]} : PyDict)) ]} in
  result.

(** Modelled from the spec: construction of a [BasePlacementGroupSpec] from
    a config mapping, steps 2 to 5 of [Spec.FromConfig] ([spec.BaseSpec] is
    missing from the sources): [_ApplyFlags], then
    [_GetOptionDecoderConstructions], then decoding of every declared
    option. *)
Definition FromConfig (FLAGS flag_values : FlagValues) (config : PyDict)
    : PyResult PyDict :=
  match run_ApplyFlags FLAGS flag_values config with
  | (Raise e, _) => Raise e
  | (Ok _, config') => DecodeAndInit _GetOptionDecoderConstructions config'
  end.

End BasePlacementGroupSpec.

(** [GetPlacementGroupSpecClass(cloud)]. *)
Definition GetPlacementGroupSpecClass (index : Index) (cloud : string) : PyResult ClassDef :=
  GetSpecClass index "BasePlacementGroupSpec" cloud.

(** [GetPlacementGroupClass(cloud)]. *)
Definition GetPlacementGroupClass (index : Index) (cloud : string) : PyResult ClassDef :=
  GetResourceClass index "BasePlacementGroup" cloud.

Section BasePlacementGroup.

(** The attributes [resource.BaseResource.__init__(self)] leaves on the new
    instance.  It is called without arguments. *)
Variable BaseResource_attrs : PyDict.

(** [super(BasePlacementGroup, self).__init__()]. *)
Definition super_init (self : loc) : StErr Heap unit :=
  fun h => (Ok tt, alter (fun d => dict_update d BaseResource_attrs) self h).

(** [BasePlacementGroup.__init__(self, placement_group_spec)]. *)
Definition __init__ (self placement_group_spec : loc) : StErr Heap unit :=
  super_init self ;;;
  zone <~ getattr_obj placement_group_spec "zone" ;;
  setattr_obj self "zone" zone.

(** [BasePlacementGroup(placement_group_spec)]: a new instance, initialised. *)
Definition BasePlacementGroup (placement_group_spec : loc) : StErr Heap loc :=
  self <~ alloc ;;
  __init__ self placement_group_spec ;;;
  ret self.

End BasePlacementGroup.

(** A [BasePlacementGroupSpec] instance: its [zone] attribute was decoded
    by a [StringDecoder] with [none_ok=True], so it is a string or [None]. *)
Definition is_spec_instance (d : PyDict) : Prop :=
  exists z, d !! "zone" = Some z /\ (z = PyNone \/ exists s, z = PyStr s).

(** The object [obj] holds a reference to [target] in one of its
    attributes. *)
Definition references (h : Heap) (obj target : loc) : Prop :=
  exists d name, h !! obj = Some d /\ d !! name = Some (PyRef target).


(** The subclass's own override, as the specification words it: the flag
    value replaces the config entry when the flag holds a true value. *)
Definition own_override (FLAGS : FlagValues) (config : PyDict) : PyResult unit * PyDict :=
  match FLAGS !! "placement_group_style" with
  | None => (Raise (AttributeError "placement_group_style"), config)
  | Some f =>
      if truthy (flag_value f)
      then (Ok tt, <["placement_group_style" := flag_value f]> config)
      else (Ok tt, config)
  end.

(** Cooperative extension, as the specification words it: the parent
    implementation runs first; the own override is applied to what the
    parent left. *)
Definition ApplyFlags_layered
    (super_ApplyFlags : PyDict -> FlagValues -> PyResult unit * PyDict)
    (FLAGS flag_values : FlagValues) (config : PyDict) : PyResult unit * PyDict :=
  match super_ApplyFlags config flag_values with
  | (Ok _, config1) => own_override FLAGS config1
  | (Raise e, config1) => (Raise e, config1)
  end.

(** A parent implementation that does nothing, for the examples. *)
Definition super_ApplyFlags_pass : PyDict -> FlagValues -> PyResult unit * PyDict :=
  fun config _ => (Ok tt, config).

(** The process-wide flags after [--placement_group_style=F]. *)
Definition FLAGS_with_style (F : string) : FlagValues :=
  parse_string_flag "placement_group_style" F (define_module_flags ∅).

(** Example registrations: two providers, each with a placement group
    class and its spec class, next to the two base classes. *)
Definition example_classes : list ClassDef :=
  [ {| cls_name := "BasePlacementGroupSpec"; cls_base := "BasePlacementGroupSpec";
       cls_CLOUD := None |};
    {| cls_name := "BasePlacementGroup"; cls_base := "BasePlacementGroup";
       cls_CLOUD := None |};
    {| cls_name := "GcePlacementGroupSpec"; cls_base := "BasePlacementGroupSpec";
       cls_CLOUD := Some "GCP" |};
    {| cls_name := "GcePlacementGroup"; cls_base := "BasePlacementGroup";
       cls_CLOUD := Some "GCP" |};
    {| cls_name := "AwsPlacementGroupSpec"; cls_base := "BasePlacementGroupSpec";
       cls_CLOUD := Some "AWS" |};
    {| cls_name := "AwsPlacementGroup"; cls_base := "BasePlacementGroup";
       cls_CLOUD := Some "AWS" |} ].

(** An example store: one spec object, at address 1, with a zone. *)
Definition example_heap : Heap :=
  {[ 1%positive := ({[ "zone" := PyStr "us-central1-a" ]} : PyDict) ]}.

(** Example attributes left by the parent constructor. *)
Definition example_base_attrs : PyDict :=
  {[ "created" := PyBool false; "deleted" := PyBool false ]}.

End PlacementGroup.

(* ===================================================================== *)
(** ** perfkitbenchmarker/providers/gcp/gce_windows_virtual_machine.py    *)
(* ===================================================================== *)

Module GceWindows.

(** The two classes of the module. *)
Inductive VmClass : Type :=
| WindowsGceVirtualMachine
| WindowsGceSqlServerVirtualMachine.

(** A dictionary display [{k1: v1, k2: v2, ...}]: the entries are stored
    left to right, a repeated key keeps the last value. *)
Definition dict_literal {V : Type} (entries : list (string * V)) : gmap string V :=
  fold_left (fun d kv => <[kv.1 := kv.2]> d) entries ∅.

(** An instance, as far as the methods below look at it: what
    [self.OS_TYPE] evaluates to, and the attributes the constructor and
    [_PostCreate] write. *)
Record VM : Type :=
  { vm_class : VmClass;
    OS_TYPE : PyValue;
    boot_metadata : gmap string string;
    password : PyValue }.

(** The double quote character inside the adapter-restart command. *)
Definition dquote : string := String "034"%char EmptyString.

Section OsTypes.

(** The OS type names of [os_types.py], which is not part of the sources
    at hand. *)
Variables WINDOWS2012_CORE WINDOWS2016_CORE WINDOWS2019_CORE WINDOWS2022_CORE : string.
Variables WINDOWS2012_DESKTOP WINDOWS2016_DESKTOP WINDOWS2019_DESKTOP
          WINDOWS2022_DESKTOP : string.
Variables WINDOWS2019_SQLSERVER_2017_STANDARD WINDOWS2019_SQLSERVER_2017_ENTERPRISE
          WINDOWS2019_SQLSERVER_2019_STANDARD WINDOWS2019_SQLSERVER_2019_ENTERPRISE
          WINDOWS2022_SQLSERVER_2019_STANDARD WINDOWS2022_SQLSERVER_2019_ENTERPRISE : string.

(** The OS type collections of [os_types.py]. *)
Variables WINDOWS_CORE_OS_TYPES WINDOWS_DESKOP_OS_TYPES WINDOWS_SQLSERVER_OS_TYPES
  : list string.

(** [DEFAULT_IMAGE_FAMILY] of each class; the subclass replaces the table. *)
Definition DEFAULT_IMAGE_FAMILY (cls : VmClass) : gmap string string :=
  match cls with
  | WindowsGceVirtualMachine =>
      dict_literal
        [ (WINDOWS2012_CORE, "windows-2012-r2-core");
          (WINDOWS2016_CORE, "windows-2016-core");
          (WINDOWS2019_CORE, "windows-2019-core");
          (WINDOWS2022_CORE, "windows-2022-core");
          (WINDOWS2012_DESKTOP, "windows-2012-r2");
          (WINDOWS2016_DESKTOP, "windows-2016");
          (WINDOWS2019_DESKTOP, "windows-2019");
          (WINDOWS2022_DESKTOP, "windows-2022") ]
  | WindowsGceSqlServerVirtualMachine =>
      dict_literal
        [ (WINDOWS2019_SQLSERVER_2017_STANDARD, "sql-std-2017-win-2019");
          (WINDOWS2019_SQLSERVER_2017_ENTERPRISE, "sql-ent-2017-win-2019");
          (WINDOWS2019_SQLSERVER_2019_STANDARD, "sql-std-2019-win-2019");
          (WINDOWS2019_SQLSERVER_2019_ENTERPRISE, "sql-ent-2019-win-2019");
          (WINDOWS2022_SQLSERVER_2019_STANDARD, "sql-std-2019-win-2022");
          (WINDOWS2022_SQLSERVER_2019_ENTERPRISE, "sql-ent-2019-win-2022") ]
  end.

(** [GVNIC_DISABLED_OS_TYPES], declared by the base class and inherited. *)
Definition GVNIC_DISABLED_OS_TYPES : list PyValue :=
  [PyStr WINDOWS2012_CORE; PyStr WINDOWS2012_DESKTOP].

Definition NVME_START_INDEX : Z := 0.

(** The class-level [OS_TYPE]: the collection of OS types a class serves. *)
Definition class_OS_TYPE (cls : VmClass) : list string :=
  match cls with
  | WindowsGceVirtualMachine => WINDOWS_CORE_OS_TYPES ++ WINDOWS_DESKOP_OS_TYPES
  | WindowsGceSqlServerVirtualMachine => WINDOWS_SQLSERVER_OS_TYPES
  end.

(** [SupportGVNIC(self)]. *)
Definition SupportGVNIC : StErr VM bool :=
  fun self => (Ok (negb (py_in (OS_TYPE self) GVNIC_DISABLED_OS_TYPES)), self).

(** [d[key]] on a dictionary with string keys: a list is unhashable, any
    other key that is not in the dictionary is a [KeyError]. *)
Definition getitem {V : Type} (d : gmap string V) (key : PyValue) : PyResult V :=
  match key with
  | PyStr s =>
      match d !! s with
      | Some v => Ok v
      | None => Raise (KeyError key)
      end
  | PyStrList _ => Raise (TypeError "unhashable type: 'list'")
  | _ => Raise (KeyError key)
  end.

(** [GetDefaultImageFamily(self)]. *)
Definition GetDefaultImageFamily : StErr VM string :=
  fun self => (getitem (DEFAULT_IMAGE_FAMILY (vm_class self)) (OS_TYPE self), self).

(** [GetDefaultImageProject(self)]. *)
Definition GetDefaultImageProject : StErr VM string :=
  fun self =>
    if py_in (OS_TYPE self) (PyStr <$> WINDOWS_SQLSERVER_OS_TYPES)
    then (Ok "windows-sql-cloud", self)
    else (Ok "windows-cloud", self).

End OsTypes.

(** *** [DisableRSS] and the remote command channel *)

Section Remote.

(** The machine at the other end of the command channel, and what
    [self.RemoteCommand(cmd)] (inherited, not part of the sources at hand)
    does with it: it returns [(stdout, stderr)] or raises, and may change
    the machine. *)
Variable Machine : Type.
Variable remote : string -> Machine -> PyResult (string * string) * Machine.

(** The machine and the commands issued on it so far, oldest first. *)
Record RemoteState : Type := { machine : Machine; issued : list string }.

(** [self.RemoteCommand(cmd)]. *)
Definition RemoteCommand (cmd : string) : StErr RemoteState (string * string) :=
  fun st =>
    let '(r, m') := remote cmd (machine st) in
    (r, {| machine := m'; issued := issued st ++ [cmd] |}).

Definition cmd_get_net_adapter : string := "Get-NetAdapter".
Definition cmd_disable_rss : string := "netsh int tcp set global rss=disabled".
Definition cmd_restart_adapter : string :=
  String.append "Restart-NetAdapter -Name "
    (String.append dquote (String.append "Ethernet" dquote)).
Definition cmd_show_global : string := "netsh int tcp show global".

(** The two exceptions [DisableRSS] raises, with their messages. *)
Definition driver_error : PyExn :=
  GceDriverDoesntSupportFeatureError "Driver not tested with RSS disabled in PKB.".

Definition adapter_output_error : PyExn :=
  GceUnexpectedWindowsAdapterOutputError "RSS failed to disable.".

(** [DisableRSS(self)]. *)
Definition DisableRSS : StErr RemoteState unit :=
  out <~ RemoteCommand cmd_get_net_adapter ;;
  let net_adapters := out.1 in
  if negb (is_substring "Red Hat VirtIO Ethernet Adapter" net_adapters) then
    raise driver_error
  else
    let command := cmd_disable_rss in
    RemoteCommand command ;;;
    try_except_IOError
      (RemoteCommand cmd_restart_adapter ;;; ret tt)
      (ret tt) ;;;
    out <~ RemoteCommand cmd_show_global ;;
    let stdout := out.1 in
    if is_substring "Receive-Side Scaling State          : enabled" stdout then
      raise adapter_output_error
    else ret tt.

(** The commands of [DisableRSS] that change the machine. *)
Definition state_changing (cmd : string) : bool :=
  bool_decide (cmd = cmd_disable_rss) || bool_decide (cmd = cmd_restart_adapter).

End Remote.

Arguments machine {Machine} _.
Arguments issued {Machine} _.
Arguments RemoteCommand {Machine} remote cmd _.
Arguments DisableRSS {Machine} remote _.

(** An example machine for [DisableRSS]: whether RSS is enabled on it.  The
    adapter query names the VirtIO adapter, the disable command switches
    RSS off, the adapter restart breaks the connection ([IOError]), and the
    global query reports the state. *)
Definition example_remote (cmd : string) (rss_enabled : bool)
    : PyResult (string * string) * bool :=
  if bool_decide (cmd = cmd_get_net_adapter) then
    (Ok ("Ethernet  Red Hat VirtIO Ethernet Adapter  Up", EmptyString), rss_enabled)
  else if bool_decide (cmd = cmd_disable_rss) then
    (Ok ("Ok.", EmptyString), false)
  else if bool_decide (cmd = cmd_restart_adapter) then
    (Raise IOError, rss_enabled)
  else if bool_decide (cmd = cmd_show_global) then
    (Ok (if rss_enabled
         then "Receive-Side Scaling State          : enabled"
         else "Receive-Side Scaling State          : disabled", EmptyString),
     rss_enabled)
  else (Raise (RemoteCommandError cmd), rss_enabled).

(** A machine whose adapter is not the VirtIO one. *)
Definition example_remote_other_driver (cmd : string) (rss_enabled : bool)
    : PyResult (string * string) * bool :=
  if bool_decide (cmd = cmd_get_net_adapter) then
    (Ok ("Ethernet  Google Ethernet Adapter  Up", EmptyString), rss_enabled)
  else example_remote cmd rss_enabled.

(** An example instance serving one OS type. *)
Definition example_vm (os_type : string) : VM :=
  {| vm_class := WindowsGceVirtualMachine;
     OS_TYPE := PyStr os_type;
     boot_metadata := ∅;
     password := PyNone |}.

End GceWindows.

(* ===================================================================== *)
(** ** gce_windows_virtual_machine.py: constructors, [_PostCreate]        *)
(* ===================================================================== *)

Module GceWindowsSetup.
Import GceWindows.

#[global] Instance PyExn_eq_dec : EqDecision PyExn.
Proof. solve_decision. Defined.

(** The line feed character of the script below. *)
Definition nl : string := String "010"%char EmptyString.

(** [BAT_SCRIPT], line by line; the text opens and closes with a line feed. *)
Definition BAT_SCRIPT : string :=
  String.concat nl
    [ EmptyString;
      "'";
      ":WAIT";
      "echo waiting for MSSQLSERVER";
      "sc start MSSQLSERVER";
      "ping 127.0.0.1 -t 1 > NUL";
      String.concat dquote
        [ "for /f "; "tokens=4"; " %%s in ('sc query MSSQLSERVER ^| find ";
          "STATE"; "') do if NOT "; "%%s"; "=="; "RUNNING"; " goto WAIT" ];
      "echo MSSQLSERVER is now running!";
      String.concat dquote
        [ "sqlcmd.exe -Q "; "CREATE LOGIN [%COMPUTERNAME%\perfkit] from windows;";
          EmptyString ];
      String.concat dquote
        [ "sqlcmd.exe -Q ";
          "ALTER SERVER ROLE [sysadmin] ADD MEMBER [%COMPUTERNAME%\perfkit]"; " '" ];
      EmptyString ].

(** [self.boot_metadata[key] = value]. *)
Definition set_boot_metadata (key value : string) (self : VM) : VM :=
  {| vm_class := vm_class self;
     OS_TYPE := OS_TYPE self;
     boot_metadata := <[key := value]> (boot_metadata self);
     password := password self |}.

(** [self.password = value]. *)
Definition set_password (value : PyValue) (self : VM) : VM :=
  {| vm_class := vm_class self;
     OS_TYPE := OS_TYPE self;
     boot_metadata := boot_metadata self;
     password := value |}.

(** The entries of the two [DEFAULT_IMAGE_FAMILY] displays, in source
    order. *)
Definition image_family_entries
    (WINDOWS2012_CORE WINDOWS2016_CORE WINDOWS2019_CORE WINDOWS2022_CORE
     WINDOWS2012_DESKTOP WINDOWS2016_DESKTOP WINDOWS2019_DESKTOP
     WINDOWS2022_DESKTOP
     WINDOWS2019_SQLSERVER_2017_STANDARD WINDOWS2019_SQLSERVER_2017_ENTERPRISE
     WINDOWS2019_SQLSERVER_2019_STANDARD WINDOWS2019_SQLSERVER_2019_ENTERPRISE
     WINDOWS2022_SQLSERVER_2019_STANDARD WINDOWS2022_SQLSERVER_2019_ENTERPRISE : string)
    (cls : VmClass) : list (string * string) :=
  match cls with
  | WindowsGceVirtualMachine =>
      [ (WINDOWS2012_CORE, "windows-2012-r2-core");
        (WINDOWS2016_CORE, "windows-2016-core");
        (WINDOWS2019_CORE, "windows-2019-core");
        (WINDOWS2022_CORE, "windows-2022-core");
        (WINDOWS2012_DESKTOP, "windows-2012-r2");
        (WINDOWS2016_DESKTOP, "windows-2016");
        (WINDOWS2019_DESKTOP, "windows-2019");
        (WINDOWS2022_DESKTOP, "windows-2022") ]
  | WindowsGceSqlServerVirtualMachine =>
      [ (WINDOWS2019_SQLSERVER_2017_STANDARD, "sql-std-2017-win-2019");
        (WINDOWS2019_SQLSERVER_2017_ENTERPRISE, "sql-ent-2017-win-2019");
        (WINDOWS2019_SQLSERVER_2019_STANDARD, "sql-std-2019-win-2019");
        (WINDOWS2019_SQLSERVER_2019_ENTERPRISE, "sql-ent-2019-win-2019");
        (WINDOWS2022_SQLSERVER_2019_STANDARD, "sql-std-2019-win-2022");
        (WINDOWS2022_SQLSERVER_2019_ENTERPRISE, "sql-ent-2019-win-2022") ]
  end.

Section Constructors.

(** The argument of the constructors, and what
    [gce_virtual_machine.GceVirtualMachine.__init__(self, vm_spec)] (not
    part of the sources at hand) makes of the new instance: it returns with
    the instance's attributes set, or raises. *)
Variable VmSpec : Type.
Variable GceVirtualMachine_init : VmSpec -> PyResult VM.

(** [windows_virtual_machine.STARTUP_SCRIPT]. *)
Variable STARTUP_SCRIPT : string.

(** [WindowsGceVirtualMachine.__init__(self, vm_spec)]. *)
Definition WindowsGceVirtualMachine_init (vm_spec : VmSpec) : PyResult VM :=
  match GceVirtualMachine_init vm_spec with
  | Raise e => Raise e
  | Ok self => Ok (set_boot_metadata "windows-startup-script-ps1" STARTUP_SCRIPT self)
  end.

(** [WindowsGceSqlServerVirtualMachine.__init__(self, vm_spec)]. *)
Definition WindowsGceSqlServerVirtualMachine_init (vm_spec : VmSpec) : PyResult VM :=
  match WindowsGceVirtualMachine_init vm_spec with
  | Raise e => Raise e
  | Ok self => Ok (set_boot_metadata "windows-startup-script-bat" BAT_SCRIPT self)
  end.

End Constructors.

Arguments WindowsGceVirtualMachine_init {VmSpec} _ _ _.
Arguments WindowsGceSqlServerVirtualMachine_init {VmSpec} _ _ _.

(** A gcloud command under construction: its positional arguments and its
    flags. *)
Record GcloudCommand : Type :=
  { gc_args : list string; gc_flags : gmap string PyValue }.

(** What [json.loads] returns: an object, with its members, or a value of
    another kind. *)
Inductive Json : Type :=
| JObject (members : gmap string PyValue)
| JOther (v : PyValue).

(** [response[key]] for a string [key]: a member of an object ([KeyError]
    when it has none of that name).  Subscripting a value of another kind
    with a string is a [TypeError]; its message is the interpreter's, which
    depends on the kind of value and on the Python version, and is given by
    [subscript_error_text]. *)
Definition json_getitem (subscript_error_text : PyValue -> string)
    (response : Json) (key : string) : PyResult PyValue :=
  match response with
  | JObject members =>
      match members !! key with
      | Some v => Ok v
      | None => Raise (KeyError (PyStr key))
      end
  | JOther v => Raise (TypeError (subscript_error_text v))
  end.

Section PostCreate.

(** The world outside the instance (the cloud project). *)
Variable Cloud : Type.

(** The collaborators, none of them in the sources at hand:
    [util.GcloudCommand(self, *args)], [cmd.IssueRetryable()],
    [json.loads] and the parent's [_PostCreate]. *)
Variable GcloudCommand_new : VM -> list string -> GcloudCommand.
Variable IssueRetryable : GcloudCommand -> Cloud -> PyResult (string * string) * Cloud.
Variable json_loads : string -> PyResult Json.
Variable super_PostCreate : StErr (VM * Cloud) unit.

(** The interpreter's message when a value that is not an object is
    subscripted with a string. *)
Variable subscript_error_text : PyValue -> string.

(** [self.name] and [self.user_name]. *)
Variables name user_name : string.

(** [_GenerateResetPasswordCommand(self)]. *)
Definition _GenerateResetPasswordCommand (self : VM) : GcloudCommand :=
  let cmd := GcloudCommand_new self ["compute"; "reset-windows-password"; name] in
  {| gc_args := gc_args cmd;
     gc_flags := <["user" := PyStr user_name]> (gc_flags cmd) |}.

(** [_PostCreate(self)]. *)
Definition _PostCreate : StErr (VM * Cloud) unit :=
  super_PostCreate ;;;
  fun st =>
    let reset_password_cmd := _GenerateResetPasswordCommand st.1 in
    match IssueRetryable reset_password_cmd st.2 with
    | (Raise e, cloud') => (Raise e, (st.1, cloud'))
    | (Ok out, cloud') =>
        let stdout := out.1 in
        match json_loads stdout with
        | Raise e => (Raise e, (st.1, cloud'))
        | Ok response =>
            match json_getitem subscript_error_text response "password" with
            | Raise e => (Raise e, (st.1, cloud'))
            | Ok pw => (Ok tt, (set_password pw st.1, cloud'))
            end
        end
    end.

End PostCreate.

Arguments _PostCreate {Cloud} _ _ _ _ _ _ _ _.

End GceWindowsSetup.

(* ===================================================================== *)
(** * Theorems                                                            *)
(* ===================================================================== *)

Import Flags Registry OptionDecoders PlacementGroup.

(** ** [_ApplyFlags] *)

Section ApplyFlagsFacts.

Variable super_ApplyFlags : PyDict -> FlagValues -> PyResult unit * PyDict.
Variables FLAGS flag_values : FlagValues.

(** One unfolding of the method: the parent's outcome decides whether the
    flag is looked at, the flag's truth value whether the entry is written. *)
Lemma _ApplyFlags_unfold (st : ApplyState) :
  _ApplyFlags super_ApplyFlags FLAGS flag_values st =
  let called := (log st ++ [EvSuperApplyFlags (config_values st) flag_values])%list in
  match super_ApplyFlags (config_values st) flag_values with
  | (Raise e, config1) => (Raise e, {| config_values := config1; log := called |})
  | (Ok _, config1) =>
      match FLAGS !! "placement_group_style" with
      | None => (Raise (AttributeError "placement_group_style"),
                 {| config_values := config1; log := called |})
      | Some f =>
          if truthy (flag_value f)
          then (Ok tt, {| config_values := <["placement_group_style" := flag_value f]> config1;
                          log := (called ++ [EvSetItem "placement_group_style" (flag_value f)])%list |})
          else (Ok tt, {| config_values := config1; log := called |})
      end
  end.
Proof.
  unfold _ApplyFlags, bind, call_super_ApplyFlags, read_flag, getattr, setitem, ret.
  destruct (super_ApplyFlags (config_values st) flag_values) as [[[]|e] config1]; simpl; [|done].
  destruct (FLAGS !! "placement_group_style") as [f|]; simpl; [|done].
  destruct (truthy (flag_value f)); done.
Qed.

Lemma run_ApplyFlags_layered (config : PyDict) :
  run_ApplyFlags super_ApplyFlags FLAGS flag_values config =
  ApplyFlags_layered super_ApplyFlags FLAGS flag_values config.
Proof.
  unfold run_ApplyFlags, ApplyFlags_layered, own_override.
  rewrite _ApplyFlags_unfold. simpl.
  destruct (super_ApplyFlags config flag_values) as [[[]|e] config1]; [|done].
  destruct (FLAGS !! "placement_group_style") as [f|]; [|done].
  destruct (truthy (flag_value f)); done.
Qed.

End ApplyFlagsFacts.

(** ** [_GetOptionDecoderConstructions] and [dict.update] *)

Lemma dict_update_lookup_Some {V} (d other : gmap string V) (name : string) (v : V) :
  other !! name = Some v -> dict_update d other !! name = Some v.
Proof. intros H. unfold dict_update. by apply lookup_union_Some_l. Qed.

Lemma dict_update_lookup_None {V} (d other : gmap string V) (name : string) :
  other !! name = None -> dict_update d other !! name = d !! name.
Proof. intros H. unfold dict_update. by apply lookup_union_r. Qed.

Lemma GetOptionDecoderConstructions_extends_eq (super_decoders : Constructions) :
  _GetOptionDecoderConstructions super_decoders !! "zone" =
    Some (StringDecoder, {[ "none_ok" := PyBool true ]}) /\
  (forall name, name <> "zone" ->
     _GetOptionDecoderConstructions super_decoders !! name = super_decoders !! name).
Proof.
  unfold _GetOptionDecoderConstructions. split.
  - apply dict_update_lookup_Some, lookup_singleton_eq.
  - intros name Hne. apply dict_update_lookup_None. by apply lookup_singleton_ne.
Qed.

(** ** Decoding the declared options *)

Section DecodeFacts.

Implicit Types (decoders : Constructions) (config : PyDict).

Lemma decode_options_lookup decoders config (option : string) :
  decode_options decoders config !! option =
  (fun c => Decode c.1 c.2 (config !! option) option) <$> decoders !! option.
Proof.
  unfold decode_options. rewrite map_lookup_imap.
  by destruct (decoders !! option).
Qed.

Lemma elem_of_invalid_options decoders config (option : string) :
  option ∈ invalid_options decoders config <->
  exists c, decoders !! option = Some c /\
            is_raise (Decode c.1 c.2 (config !! option) option) = true.
Proof.
  unfold invalid_options. rewrite elem_of_dom. unfold is_Some.
  setoid_rewrite map_lookup_filter_Some. setoid_rewrite decode_options_lookup.
  split.
  - intros (r & Hr & Hraise). destruct (decoders !! option) as [c|]; [|done].
    simpl in *. injection Hr as <-. by exists c.
  - intros (c & -> & Hraise). simpl. by eexists.
Qed.

(** Without invalid options the construction returns the decoded values. *)
Lemma DecodeAndInit_valid decoders config :
  invalid_options decoders config = ∅ ->
  DecodeAndInit decoders config = Ok (omap ok_value (decode_options decoders config)).
Proof. intros Hvalid. unfold DecodeAndInit. by rewrite Hvalid, elements_empty. Qed.

(** A string handed to a [StringDecoder] is the decoded value. *)
Lemma Decode_string (kwargs : PyDict) (v : string) (name : string) :
  Decode StringDecoder kwargs (Some (PyStr v)) name = Ok (PyStr v).
Proof. reflexivity. Qed.

(** An absent [zone] decodes to [None] under the declared decoder. *)
Lemma Decode_zone_absent :
  Decode StringDecoder {[ "none_ok" := PyBool true ]} None "zone" = Ok PyNone.
Proof. reflexivity. Qed.

Lemma invalid_options_zone_absent (super_decoders : Constructions) config :
  config !! "zone" = None ->
  invalid_options (_GetOptionDecoderConstructions super_decoders) config =
  invalid_options (delete "zone" super_decoders) config.
Proof.
  intros Habsent. apply set_eq. intros option.
  rewrite !elem_of_invalid_options.
  destruct (GetOptionDecoderConstructions_extends_eq super_decoders) as [Hzone Hother].
  destruct (decide (option = "zone")) as [->|Hne].
  - rewrite Hzone, lookup_delete_eq, Habsent. split.
    + intros (c & [= <-] & Hraise). discriminate Hraise.
    + intros (c & Hc & _). discriminate Hc.
  - by rewrite Hother, lookup_delete_ne.
Qed.

Lemma DecodeAndInit_zone_absent (super_decoders : Constructions) config :
  config !! "zone" = None ->
  invalid_options (delete "zone" super_decoders) config = ∅ ->
  exists spec,
    DecodeAndInit (_GetOptionDecoderConstructions super_decoders) config = Ok spec /\
    spec !! "zone" = Some PyNone.
Proof.
  intros Habsent Hvalid.
  rewrite DecodeAndInit_valid by by rewrite invalid_options_zone_absent.
  eexists. split; [reflexivity|].
  rewrite lookup_omap, decode_options_lookup.
  destruct (GetOptionDecoderConstructions_extends_eq super_decoders) as [-> _].
  simpl. by rewrite Habsent.
Qed.

End DecodeFacts.

(** ** Flag precedence *)

Example FLAGS_unset_is_default :
  not_set (define_module_flags ∅) "placement_group_style" PyNone.
Proof. reflexivity. Qed.

Example FLAGS_with_style_set (F : string) :
  explicitly_set (FLAGS_with_style F) "placement_group_style" F.
Proof.
  unfold explicitly_set, FLAGS_with_style, parse_string_flag, define_module_flags, DEFINE_string.
  rewrite lookup_insert_eq. apply lookup_insert_eq.
Qed.

Example ApplyFlags_spread_overrides_cluster :
  run_ApplyFlags super_ApplyFlags_pass (FLAGS_with_style "spread") ∅
    {[ "placement_group_style" := PyStr "cluster" ]}
  = (Ok tt, {[ "placement_group_style" := PyStr "spread" ]}).
Proof. vm_compute. reflexivity. Qed.

(** C1, as the claim words it, fails: with a parent that leaves the
    dictionary alone, the flag explicitly set to the empty string and the
    config entry ['cluster'], the entry after [_ApplyFlags] is still
    ['cluster'].  So it is not the case that the entry equals [F] for every
    explicitly set flag value [F]. *)
Lemma ApplyFlags_empty_flag_does_not_override :
  ~ (forall (super_ApplyFlags : PyDict -> FlagValues -> PyResult unit * PyDict)
            (FLAGS flag_values : FlagValues) (config config1 : PyDict) (F : string),
        super_ApplyFlags config flag_values = (Ok tt, config1) ->
        explicitly_set FLAGS "placement_group_style" F ->
        (run_ApplyFlags super_ApplyFlags FLAGS flag_values config).2
          !! "placement_group_style" = Some (PyStr F)).
Proof.
  intros claim.
  specialize (claim super_ApplyFlags_pass (FLAGS_with_style EmptyString)
                (FLAGS_with_style EmptyString)
                {[ "placement_group_style" := PyStr "cluster" ]}
                {[ "placement_group_style" := PyStr "cluster" ]}
                EmptyString eq_refl (FLAGS_with_style_set EmptyString)).
  vm_compute in claim. discriminate claim.
Qed.

(** C1, amended: [_ApplyFlags] reads the process-wide
    [FLAGS.placement_group_style].  When the parent implementation returns
    and the flag holds a non-empty string [F], the method returns and the
    config entry equals [F], whatever the config value was; when the flag
    holds [None] (its default: the flag was not set) or the empty string,
    the dictionary is what the parent left, so the entry keeps the config
    value.  Where a decoder for the option is declared and every declared
    option decodes, the Spec field is that entry. *)
Theorem ApplyFlags_flag_precedence
    (super_ApplyFlags : PyDict -> FlagValues -> PyResult unit * PyDict)
    (FLAGS flag_values : FlagValues) (config config1 : PyDict) (f : Flag) :
  super_ApplyFlags config flag_values = (Ok tt, config1) ->
  FLAGS !! "placement_group_style" = Some f ->
  exists config',
    run_ApplyFlags super_ApplyFlags FLAGS flag_values config = (Ok tt, config') /\
    (forall F, flag_value f = PyStr F -> F <> EmptyString ->
               config' !! "placement_group_style" = Some (PyStr F)) /\
    (flag_value f = PyNone \/ flag_value f = PyStr EmptyString ->
     config' = config1 /\
     config' !! "placement_group_style" = config1 !! "placement_group_style") /\
    (forall (super_decoders : Constructions) (kwargs : PyDict) (v : string),
       super_decoders !! "placement_group_style" = Some (StringDecoder, kwargs) ->
       config' !! "placement_group_style" = Some (PyStr v) ->
       invalid_options (_GetOptionDecoderConstructions super_decoders) config' = ∅ ->
       exists spec,
         FromConfig super_ApplyFlags super_decoders FLAGS flag_values config = Ok spec /\
         spec !! "placement_group_style" = Some (PyStr v)).
Proof.
  intros Hsuper Hflag.
  set (config' := if truthy (flag_value f)
                  then <["placement_group_style" := flag_value f]> config1
                  else config1).
  assert (Hrun : run_ApplyFlags super_ApplyFlags FLAGS flag_values config
                 = (Ok tt, config')).
  { rewrite run_ApplyFlags_layered. unfold ApplyFlags_layered, own_override.
    rewrite Hsuper, Hflag. subst config'. by destruct (truthy (flag_value f)). }
  exists config'. split; [exact Hrun|]. split; [|split].
  - intros F HF HFne. subst config'. rewrite HF. simpl.
    destruct (String.eqb_spec F EmptyString); [contradiction|].
    simpl. apply lookup_insert_eq.
  - intros [HN | HE]; subst config'; [rewrite HN | rewrite HE]; done.
  - intros super_decoders kwargs v Hdec Hentry Hvalid.
    unfold FromConfig. rewrite Hrun, DecodeAndInit_valid by exact Hvalid.
    eexists. split; [reflexivity|].
    rewrite lookup_omap, decode_options_lookup.
    destruct (GetOptionDecoderConstructions_extends_eq super_decoders) as [_ Hother].
    rewrite Hother by discriminate. rewrite Hdec. simpl. by rewrite Hentry.
Qed.

Lemma ApplyFlags_flag_precedence_witness :
  exists config',
    run_ApplyFlags super_ApplyFlags_pass
      (FLAGS_with_style "spread") (FLAGS_with_style "spread")
      {[ "placement_group_style" := PyStr "cluster" ]} = (Ok tt, config') /\
    config' !! "placement_group_style" = Some (PyStr "spread") /\
    exists spec,
      FromConfig super_ApplyFlags_pass
        {[ "placement_group_style" := (StringDecoder, ∅) ]}
        (FLAGS_with_style "spread") (FLAGS_with_style "spread")
        {[ "placement_group_style" := PyStr "cluster" ]} = Ok spec /\
      spec !! "placement_group_style" = Some (PyStr "spread").
Proof.
  destruct (ApplyFlags_flag_precedence super_ApplyFlags_pass
              (FLAGS_with_style "spread") (FLAGS_with_style "spread")
              {[ "placement_group_style" := PyStr "cluster" ]}
              {[ "placement_group_style" := PyStr "cluster" ]}
              {| flag_value := PyStr "spread"; flag_present := true |}
              eq_refl eq_refl)
    as (config' & Hrun & Hflag & _ & Hfield).
  exists config'. split; [exact Hrun|].
  assert (Hentry : config' !! "placement_group_style" = Some (PyStr "spread")).
  { apply Hflag; [reflexivity | discriminate]. }
  split; [exact Hentry|].
  apply (Hfield {[ "placement_group_style" := (StringDecoder, ∅) ]} ∅ "spread").
  - reflexivity.
  - exact Hentry.
  - injection Hrun as <-. vm_compute. reflexivity.
Defined.

(** C2: [_ApplyFlags] agrees with the layered reading (the parent's
    [_ApplyFlags] runs on the config mapping, the own override is applied to
    what the parent left).  The parent is called first and unconditionally,
    on the mapping and flag values the method received; the only other
    action is at most one assignment of the [placement_group_style] entry,
    after it; and every other entry is as the parent left it. *)
Theorem ApplyFlags_parent_first
    (super_ApplyFlags : PyDict -> FlagValues -> PyResult unit * PyDict)
    (FLAGS flag_values : FlagValues) (config : PyDict) :
  let out := _ApplyFlags super_ApplyFlags FLAGS flag_values
               {| config_values := config; log := [] |} in
  (out.1, config_values out.2) =
    ApplyFlags_layered super_ApplyFlags FLAGS flag_values config /\
  (log out.2 = [EvSuperApplyFlags config flag_values] \/
   exists v, log out.2 = [EvSuperApplyFlags config flag_values;
                          EvSetItem "placement_group_style" v]) /\
  delete "placement_group_style" (config_values out.2) =
    delete "placement_group_style" (super_ApplyFlags config flag_values).2.
Proof.
  intros out. split; [|split].
  - rewrite <- run_ApplyFlags_layered. unfold run_ApplyFlags. fold out.
    destruct out; reflexivity.
  - subst out. rewrite _ApplyFlags_unfold. simpl.
    destruct (super_ApplyFlags config flag_values) as [[[]|e] config1]; [|by left].
    destruct (FLAGS !! "placement_group_style") as [f|]; [|by left].
    destruct (truthy (flag_value f)); [right; by eexists | by left].
  - subst out. rewrite _ApplyFlags_unfold. simpl.
    destruct (super_ApplyFlags config flag_values) as [[[]|e] config1]; [|done].
    destruct (FLAGS !! "placement_group_style") as [f|]; [|done].
    destruct (truthy (flag_value f)); [|done].
    simpl. apply delete_insert_eq.
Qed.

(** ** The registry lookups *)

Section RegistryFacts.

Implicit Types (classes : list ClassDef) (index : Index) (c : ClassDef).

Lemma register_lookup index c0 key c :
  register index c0 !! key = Some c ->
  index !! key = Some c \/ (c = c0 /\ declares key.1 key.2 c0).
Proof.
  unfold register, declares. destruct (cls_CLOUD c0) as [cloud|] eqn:Hcloud; [|by left].
  destruct (decide ((cls_base c0, cloud) = key)) as [<-|Hne].
  - rewrite lookup_insert_eq. intros [= <-]. by right.
  - rewrite lookup_insert_ne by done. by left.
Qed.

Lemma register_keeps index c0 key :
  is_Some (index !! key) -> is_Some (register index c0 !! key).
Proof.
  intros Hsome. unfold register. destruct (cls_CLOUD c0) as [cloud|]; [|done].
  destruct (decide ((cls_base c0, cloud) = key)) as [<-|Hne].
  - rewrite lookup_insert_eq. by eexists.
  - by rewrite lookup_insert_ne.
Qed.

Lemma register_declared index c base_class cloud :
  declares base_class cloud c -> register index c !! (base_class, cloud) = Some c.
Proof.
  intros [<- Hcloud]. unfold register. rewrite Hcloud. apply lookup_insert_eq.
Qed.

(** Whatever the index holds under a key was there before or is a class of
    the list that declares this key. *)
Lemma fold_register_lookup classes : forall index key c,
  fold_left register classes index !! key = Some c ->
  index !! key = Some c \/ (c ∈ classes /\ declares key.1 key.2 c).
Proof.
  induction classes as [|c0 classes IH]; intros index key c Hlook; simpl in Hlook.
  - by left.
  - apply IH in Hlook as [Hlook | [Hin Hdecl]].
    + apply register_lookup in Hlook as [Hlook | [-> Hdecl]]; [by left|].
      right. split; [apply list_elem_of_here | done].
    + right. split; [by apply list_elem_of_further | done].
Qed.

Lemma fold_register_keeps classes : forall index key,
  is_Some (index !! key) -> is_Some (fold_left register classes index !! key).
Proof.
  induction classes as [|c0 classes IH]; intros index key Hsome; simpl; [done|].
  apply IH. by apply register_keeps.
Qed.

(** A class of the list that declares a key leaves that key occupied. *)
Lemma fold_register_declared classes : forall index c base_class cloud,
  c ∈ classes -> declares base_class cloud c ->
  is_Some (fold_left register classes index !! (base_class, cloud)).
Proof.
  induction classes as [|c0 classes IH]; intros index c base_class cloud Hin Hdecl.
  - by apply elem_of_nil in Hin.
  - simpl. apply elem_of_cons in Hin as [-> | Hin].
    + apply fold_register_keeps. rewrite register_declared by done. by eexists.
    + by eapply IH.
Qed.

Lemma Resolve_unregistered classes base_class cloud :
  (forall c, c ∈ classes -> ~ declares base_class cloud c) ->
  Resolve (build_index classes) base_class cloud =
    Raise (NotImplementedError base_class cloud).
Proof.
  intros Hnone. unfold Resolve, build_index.
  destruct (fold_left register classes ∅ !! (base_class, cloud)) as [c|] eqn:Hlook; [|done].
  apply fold_register_lookup in Hlook as [Hlook | [Hin Hdecl]].
  - by rewrite lookup_empty in Hlook.
  - by destruct (Hnone c Hin).
Qed.

Lemma Resolve_registered classes base_class cloud c :
  unique_registration classes ->
  c ∈ classes -> declares base_class cloud c ->
  Resolve (build_index classes) base_class cloud = Ok c.
Proof.
  intros Huniq Hin Hdecl. unfold Resolve, build_index.
  destruct (fold_register_declared classes ∅ c base_class cloud Hin Hdecl) as [c' Hlook].
  rewrite Hlook. f_equal.
  apply fold_register_lookup in Hlook as [Hlook | [Hin' Hdecl']].
  - by rewrite lookup_empty in Hlook.
  - by apply (Huniq c' c base_class cloud).
Qed.

End RegistryFacts.

(** C3: with at most one class registered per (base class, cloud), a cloud
    identifier that no concrete [BasePlacementGroup] (resp.
    [BasePlacementGroupSpec]) subclass declares makes
    [GetPlacementGroupClass] (resp. [GetPlacementGroupSpecClass]) fail with
    the [NotImplementedError]-class error, and a cloud identifier that a
    subclass declares in its [CLOUD] constant resolves to exactly that
    subclass. *)
Theorem GetPlacementGroupClass_resolves (classes : list ClassDef) (cloud : string) :
  unique_registration classes ->
  ((forall c, c ∈ classes -> ~ declares "BasePlacementGroup" cloud c) ->
   GetPlacementGroupClass (build_index classes) cloud =
     Raise (NotImplementedError "BasePlacementGroup" cloud)) /\
  ((forall c, c ∈ classes -> ~ declares "BasePlacementGroupSpec" cloud c) ->
   GetPlacementGroupSpecClass (build_index classes) cloud =
     Raise (NotImplementedError "BasePlacementGroupSpec" cloud)) /\
  (forall c, c ∈ classes -> declares "BasePlacementGroup" cloud c ->
   GetPlacementGroupClass (build_index classes) cloud = Ok c) /\
  (forall c, c ∈ classes -> declares "BasePlacementGroupSpec" cloud c ->
   GetPlacementGroupSpecClass (build_index classes) cloud = Ok c).
Proof.
  intros Huniq. unfold GetPlacementGroupClass, GetPlacementGroupSpecClass,
    GetResourceClass, GetSpecClass.
  repeat split.
  - apply Resolve_unregistered.
  - apply Resolve_unregistered.
  - intros c. by apply Resolve_registered.
  - intros c. by apply Resolve_registered.
Qed.

Lemma example_classes_unique : unique_registration example_classes.
Proof.
  intros c1 c2 base_class cloud H1 H2 [B1 C1] [B2 C2].
  unfold example_classes in H1, H2.
  rewrite !elem_of_cons, elem_of_nil in H1, H2.
  destruct H1 as [->|[->|[->|[->|[->|[->|[]]]]]]];
    destruct H2 as [->|[->|[->|[->|[->|[->|[]]]]]]];
    simpl in *; congruence.
Qed.

Lemma GetPlacementGroupClass_resolves_witness :
  ((forall c, c ∈ example_classes -> ~ declares "BasePlacementGroup" "GCP" c) ->
   GetPlacementGroupClass (build_index example_classes) "GCP" =
     Raise (NotImplementedError "BasePlacementGroup" "GCP")) /\
  ((forall c, c ∈ example_classes -> ~ declares "BasePlacementGroupSpec" "GCP" c) ->
   GetPlacementGroupSpecClass (build_index example_classes) "GCP" =
     Raise (NotImplementedError "BasePlacementGroupSpec" "GCP")) /\
  (forall c, c ∈ example_classes -> declares "BasePlacementGroup" "GCP" c ->
   GetPlacementGroupClass (build_index example_classes) "GCP" = Ok c) /\
  (forall c, c ∈ example_classes -> declares "BasePlacementGroupSpec" "GCP" c ->
   GetPlacementGroupSpecClass (build_index example_classes) "GCP" = Ok c).
Proof.
  apply (GetPlacementGroupClass_resolves example_classes "GCP").
  exact example_classes_unique.
Defined.

Example GetPlacementGroupClass_GCP :
  GetPlacementGroupClass (build_index example_classes) "GCP" =
  Ok {| cls_name := "GcePlacementGroup"; cls_base := "BasePlacementGroup";
        cls_CLOUD := Some "GCP" |}.
Proof. vm_compute. reflexivity. Qed.

Example GetPlacementGroupClass_nonexistent_cloud :
  GetPlacementGroupClass (build_index example_classes) "NONEXISTENT-CLOUD" =
  Raise (NotImplementedError "BasePlacementGroup" "NONEXISTENT-CLOUD").
Proof. vm_compute. reflexivity. Qed.

(** C4: [_GetOptionDecoderConstructions] returns the parent's mapping with
    the entry ['zone'] set to [(StringDecoder, {'none_ok': True})]: the
    subclass's entry is there whether or not the parent had one under that
    name, and every entry of the parent under another name is in the result
    unchanged (and nothing else is). *)
Theorem GetOptionDecoderConstructions_extends (super_decoders : Constructions) :
  let result := _GetOptionDecoderConstructions super_decoders in
  result = <["zone" := (StringDecoder, {[ "none_ok" := PyBool true ]})]> super_decoders /\
  result !! "zone" = Some (StringDecoder, {[ "none_ok" := PyBool true ]}) /\
  (forall name, name <> "zone" -> result !! name = super_decoders !! name) /\
  dom result = {[ "zone" ]} ∪ dom super_decoders.
Proof.
  intros result.
  assert (Heq : result =
            <["zone" := (StringDecoder, {[ "none_ok" := PyBool true ]})]> super_decoders).
  { subst result. unfold _GetOptionDecoderConstructions, dict_update.
    by rewrite insert_union_singleton_l. }
  rewrite Heq. repeat split.
  - apply lookup_insert_eq.
  - intros name Hne. by rewrite lookup_insert_ne.
  - apply dom_insert_L.
Qed.

Lemma GetOptionDecoderConstructions_extends_witness :
  let super_decoders : Constructions :=
    {[ "zone" := (StringDecoder, ∅); "count" := (IntDecoder, ∅) ]} in
  let result := _GetOptionDecoderConstructions super_decoders in
  result !! "zone" = Some (StringDecoder, {[ "none_ok" := PyBool true ]}) /\
  result !! "count" = Some (IntDecoder, ∅).
Proof.
  intros super_decoders result.
  destruct (GetOptionDecoderConstructions_extends super_decoders) as (_ & Hzone & Hother & _).
  split; [exact Hzone|].
  unfold result. rewrite (Hother "count"); [reflexivity | discriminate].
Defined.

(** ** [BasePlacementGroup.__init__] *)

Section BasePlacementGroupFacts.

Variable base_attrs : PyDict.

(** The constructor in one step: when the spec object is live and has a
    [zone], the new instance sits at a fresh address and carries the
    parent's attributes with [zone] written over them; the rest of the store
    is untouched. *)
Lemma BasePlacementGroup_unfold (h : Heap) (s : loc) (sd : PyDict) (z : PyValue) :
  h !! s = Some sd -> sd !! "zone" = Some z ->
  BasePlacementGroup base_attrs s h =
    (Ok (fresh (dom h)), <[fresh (dom h) := <["zone" := z]> base_attrs]> h).
Proof.
  intros Hs Hz.
  assert (Hfresh : fresh (dom h) <> s).
  { intros Heq. apply (is_fresh (dom h)). rewrite Heq. apply elem_of_dom. by eexists. }
  unfold BasePlacementGroup, __init__, bind, alloc, super_init, getattr_obj,
    setattr_obj, ret, dict_update.
  rewrite lookup_alter_ne, lookup_insert_ne by done.
  rewrite Hs. simpl. rewrite Hz. f_equal.
  rewrite !alter_insert_eq.
  by rewrite (right_id_L ∅ (∪)).
Qed.

Lemma fresh_not_live (h : Heap) : h !! fresh (dom h) = None.
Proof. apply not_elem_of_dom. apply is_fresh. Qed.

End BasePlacementGroupFacts.

(** C5: for a spec instance [s], [BasePlacementGroup(s)] returns a new
    object, distinct from [s], whose [zone] attribute holds the value of
    [s.zone]; no attribute of the new object refers to [s] (the parent
    constructor is called without arguments and so is given no reference to
    [s]); [s] itself is left as it was; and writing any attribute of [s]
    afterwards, or disposing of [s], leaves the new object as it is. *)
Theorem BasePlacementGroup_copies_zone
    (base_attrs : PyDict) (h : Heap) (s : loc) (sd : PyDict) :
  h !! s = Some sd ->
  is_spec_instance sd ->
  (forall name, base_attrs !! name <> Some (PyRef s)) ->
  exists self h' d,
    BasePlacementGroup base_attrs s h = (Ok self, h') /\
    self <> s /\ h !! self = None /\
    h' !! self = Some d /\ d !! "zone" = sd !! "zone" /\
    ~ references h' self s /\
    h' !! s = Some sd /\
    (forall name v, (setattr_obj s name v h').2 !! self = Some d) /\
    (dispose s h').2 !! self = Some d.
Proof.
  intros Hs (z & Hz & Hkind) Hbase.
  assert (Hne : fresh (dom h) <> s).
  { intros Heq. pose proof (fresh_not_live h) as Hf. rewrite Heq, Hs in Hf. discriminate. }
  exists (fresh (dom h)), (<[fresh (dom h) := <["zone" := z]> base_attrs]> h),
    (<["zone" := z]> base_attrs).
  split; [by apply BasePlacementGroup_unfold with sd|].
  split; [done|]. split; [apply fresh_not_live|].
  split; [apply lookup_insert_eq|].
  split; [by rewrite lookup_insert_eq|].
  split.
  { intros (d & name & Hd & Hname). rewrite lookup_insert_eq in Hd.
    injection Hd as <-.
    destruct (decide (name = "zone")) as [->|Hnz].
    - rewrite lookup_insert_eq in Hname. injection Hname as ->.
      destruct Hkind as [? | [? ?]]; discriminate.
    - rewrite lookup_insert_ne in Hname by done. by apply (Hbase name). }
  split; [by rewrite lookup_insert_ne|].
  split.
  - intros name v. unfold setattr_obj. simpl.
    rewrite lookup_alter_ne by done. apply lookup_insert_eq.
  - unfold dispose. simpl. rewrite lookup_delete_ne by done. apply lookup_insert_eq.
Qed.

Lemma BasePlacementGroup_copies_zone_witness :
  exists self h' d,
    BasePlacementGroup example_base_attrs 1%positive example_heap = (Ok self, h') /\
    self <> 1%positive /\ example_heap !! self = None /\
    h' !! self = Some d /\
    d !! "zone" = ({[ "zone" := PyStr "us-central1-a" ]} : PyDict) !! "zone" /\
    ~ references h' self 1%positive /\
    h' !! 1%positive = Some {[ "zone" := PyStr "us-central1-a" ]} /\
    (forall name v, (setattr_obj 1%positive name v h').2 !! self = Some d) /\
    (dispose 1%positive h').2 !! self = Some d.
Proof.
  apply (BasePlacementGroup_copies_zone example_base_attrs example_heap 1%positive
           {[ "zone" := PyStr "us-central1-a" ]}).
  - reflexivity.
  - exists (PyStr "us-central1-a"). split; [reflexivity|]. right. by eexists.
  - intros name. unfold example_base_attrs.
    destruct (decide (name = "created")) as [->|H1]; [discriminate|].
    destruct (decide (name = "deleted")) as [->|H2]; [discriminate|].
    rewrite lookup_insert_ne, lookup_singleton_ne by done. discriminate.
Defined.

Example BasePlacementGroup_example :
  BasePlacementGroup example_base_attrs 1%positive example_heap =
  (Ok 2%positive,
   <[2%positive := <["zone" := PyStr "us-central1-a"]> example_base_attrs]> example_heap).
Proof. vm_compute. reflexivity. Qed.

(** ** Construction of a Spec without [zone] *)

Lemma run_ApplyFlags_keeps_zone
    (super_ApplyFlags : PyDict -> FlagValues -> PyResult unit * PyDict)
    (FLAGS flag_values : FlagValues) (config config1 : PyDict) (f : Flag) :
  super_ApplyFlags config flag_values = (Ok tt, config1) ->
  FLAGS !! "placement_group_style" = Some f ->
  exists config',
    run_ApplyFlags super_ApplyFlags FLAGS flag_values config = (Ok tt, config') /\
    config' !! "zone" = config1 !! "zone".
Proof.
  intros Hsuper Hflag.
  rewrite run_ApplyFlags_layered. unfold ApplyFlags_layered, own_override.
  rewrite Hsuper, Hflag.
  destruct (truthy (flag_value f)); eexists; split; try reflexivity.
  by rewrite lookup_insert_ne.
Qed.

(** C7: for a config mapping without [zone] (and a parent [_ApplyFlags]
    that returns and supplies none), the declared decoder turns the absent
    [zone] into [None], [zone] is never among the invalid options, the
    invalid options are exactly those of the parent's other declarations,
    and when there are none the construction succeeds with a Spec whose
    [zone] is [None]. *)
Theorem FromConfig_zone_absent
    (super_ApplyFlags : PyDict -> FlagValues -> PyResult unit * PyDict)
    (super_decoders : Constructions)
    (FLAGS flag_values : FlagValues) (config config1 : PyDict) (f : Flag) :
  config !! "zone" = None ->
  super_ApplyFlags config flag_values = (Ok tt, config1) ->
  config1 !! "zone" = config !! "zone" ->
  FLAGS !! "placement_group_style" = Some f ->
  let config' := (run_ApplyFlags super_ApplyFlags FLAGS flag_values config).2 in
  let decoders := _GetOptionDecoderConstructions super_decoders in
  (exists c, decoders !! "zone" = Some c /\
             Decode c.1 c.2 (config' !! "zone") "zone" = Ok PyNone) /\
  ~ ("zone" ∈ invalid_options decoders config') /\
  invalid_options decoders config' = invalid_options (delete "zone" super_decoders) config' /\
  (invalid_options (delete "zone" super_decoders) config' = ∅ ->
   exists spec,
     FromConfig super_ApplyFlags super_decoders FLAGS flag_values config = Ok spec /\
     spec !! "zone" = Some PyNone).
Proof.
  intros Habsent Hsuper Hkeep Hflag config' decoders.
  destruct (run_ApplyFlags_keeps_zone _ _ _ _ _ _ Hsuper Hflag) as (c' & Hrun & Hzone).
  assert (Habsent' : config' !! "zone" = None).
  { subst config'. rewrite Hrun. simpl. by rewrite Hzone, Hkeep. }
  assert (Hinv : invalid_options decoders config' =
                 invalid_options (delete "zone" super_decoders) config')
    by by apply invalid_options_zone_absent.
  split; [|split; [|split]].
  - destruct (GetOptionDecoderConstructions_extends_eq super_decoders) as [Hz _].
    eexists. split; [exact Hz|]. simpl. by rewrite Habsent'.
  - rewrite Hinv, elem_of_invalid_options. intros (c & Hc & _).
    rewrite lookup_delete_eq in Hc. discriminate Hc.
  - exact Hinv.
  - intros Hvalid. unfold FromConfig.
    subst config'. rewrite Hrun in *. simpl in *.
    by apply DecodeAndInit_zone_absent.
Qed.

Lemma FromConfig_zone_absent_witness :
  exists spec,
    FromConfig super_ApplyFlags_pass ∅ (define_module_flags ∅) ∅ ∅ = Ok spec /\
    spec !! "zone" = Some PyNone.
Proof.
  apply (FromConfig_zone_absent super_ApplyFlags_pass ∅ (define_module_flags ∅) ∅ ∅ ∅
           {| flag_value := PyNone; flag_present := false |}).
  - reflexivity.
  - reflexivity.
  - reflexivity.
  - reflexivity.
  - vm_compute. reflexivity.
Defined.

Example FromConfig_empty_config :
  FromConfig super_ApplyFlags_pass ∅ (define_module_flags ∅) ∅ ∅ =
  Ok {[ "zone" := PyNone ]}.
Proof. vm_compute. reflexivity. Qed.

Example FromConfig_zone_given :
  FromConfig super_ApplyFlags_pass ∅ (define_module_flags ∅) ∅
    {[ "zone" := PyStr "us-central1-a" ]} =
  Ok {[ "zone" := PyStr "us-central1-a" ]}.
Proof. vm_compute. reflexivity. Qed.

(** ** The GCE Windows virtual machine *)

Import GceWindows.

Lemma py_eq_PyStr (x : PyValue) (s : string) :
  py_eq x (PyStr s) = true <-> x = PyStr s.
Proof.
  destruct x; simpl; try (split; [discriminate | discriminate]).
  rewrite String.eqb_eq. split; [by intros -> | by intros [= ->]].
Qed.

Lemma py_in_strings (x : PyValue) (l : list string) :
  py_in x (PyStr <$> l) = true <-> exists s, s ∈ l /\ x = PyStr s.
Proof.
  unfold py_in. rewrite existsb_exists. split.
  - intros (v & Hin & Heq). apply list_elem_of_In, list_elem_of_fmap in Hin as (s & -> & Hs).
    exists s. split; [done|]. by apply py_eq_PyStr.
  - intros (s & Hs & ->). exists (PyStr s). split.
    + apply list_elem_of_In, list_elem_of_fmap. by exists s.
    + by apply py_eq_PyStr.
Qed.

(** C8: [SupportGVNIC] leaves the instance as it is, returns [False]
    exactly when the instance's [OS_TYPE] is [WINDOWS2012_CORE] or
    [WINDOWS2012_DESKTOP], and returns [True] for every other [OS_TYPE]. *)
Theorem SupportGVNIC_disabled_os_types
    (WINDOWS2012_CORE WINDOWS2012_DESKTOP : string) (self : VM) :
  let out := SupportGVNIC WINDOWS2012_CORE WINDOWS2012_DESKTOP self in
  let disabled := OS_TYPE self = PyStr WINDOWS2012_CORE \/
                  OS_TYPE self = PyStr WINDOWS2012_DESKTOP in
  out.2 = self /\
  (out.1 = Ok false <-> disabled) /\
  (out.1 = Ok true <-> ~ disabled).
Proof.
  intros out disabled. subst out disabled. unfold SupportGVNIC, GVNIC_DISABLED_OS_TYPES, py_in.
  simpl. split; [reflexivity|].
  rewrite orb_false_r.
  destruct (py_eq (OS_TYPE self) (PyStr WINDOWS2012_CORE)) eqn:Hcore;
    destruct (py_eq (OS_TYPE self) (PyStr WINDOWS2012_DESKTOP)) eqn:Hdesk; simpl;
    try (apply py_eq_PyStr in Hcore); try (apply py_eq_PyStr in Hdesk).
  - split; split; try done; [by left | by intros []; left].
  - split; split; try done; [by left | by intros []; left].
  - split; split; try done; [by right | by intros []; right].
  - assert (Hnot : ~ (OS_TYPE self = PyStr WINDOWS2012_CORE \/
                      OS_TYPE self = PyStr WINDOWS2012_DESKTOP)).
    { intros [H | H]; apply py_eq_PyStr in H; congruence. }
    split; split; try done.
Qed.

Example SupportGVNIC_windows2012 :
  (SupportGVNIC "windows2012_core" "windows2012_desktop" (example_vm "windows2012_desktop")).1
  = Ok false.
Proof. reflexivity. Qed.

Example SupportGVNIC_windows2019 :
  (SupportGVNIC "windows2012_core" "windows2012_desktop" (example_vm "windows2019_core")).1
  = Ok true.
Proof. reflexivity. Qed.

Section DisableRSSFacts.

Context {Machine : Type}.
Variable remote : string -> Machine -> PyResult (string * string) * Machine.

(** The adapter query decides whether anything else is issued. *)
Lemma DisableRSS_unsupported_driver (st : RemoteState Machine)
    (out : string * string) (m1 : Machine) :
  remote cmd_get_net_adapter (machine st) = (Ok out, m1) ->
  is_substring "Red Hat VirtIO Ethernet Adapter" out.1 = false ->
  DisableRSS remote st =
    (Raise driver_error,
     {| machine := m1; issued := issued st ++ [cmd_get_net_adapter] |}).
Proof.
  intros Hget Hsub. unfold DisableRSS, bind, RemoteCommand, raise.
  rewrite Hget. cbn -[is_substring]. by rewrite Hsub.
Qed.

(** With a supported driver and a disable command that returns, the
    restart is issued, an [IOError] from it is swallowed, and the global
    query decides the outcome. *)
Lemma DisableRSS_supported_driver (st : RemoteState Machine)
    (out1 out2 out4 : string * string) (r3 : PyResult (string * string))
    (m1 m2 m3 m4 : Machine) :
  remote cmd_get_net_adapter (machine st) = (Ok out1, m1) ->
  is_substring "Red Hat VirtIO Ethernet Adapter" out1.1 = true ->
  remote cmd_disable_rss m1 = (Ok out2, m2) ->
  remote cmd_restart_adapter m2 = (r3, m3) ->
  (r3 = Raise IOError \/ exists out3, r3 = Ok out3) ->
  remote cmd_show_global m3 = (Ok out4, m4) ->
  DisableRSS remote st =
    (if is_substring "Receive-Side Scaling State          : enabled" out4.1
     then Raise adapter_output_error else Ok tt,
     {| machine := m4;
        issued := issued st ++ [cmd_get_net_adapter; cmd_disable_rss;
                                cmd_restart_adapter; cmd_show_global] |}).
Proof.
  intros Hget Hsub Hdis Hrestart Hr3 Hshow.
  unfold DisableRSS, bind, RemoteCommand, raise, ret, try_except_IOError.
  rewrite Hget. cbn -[is_substring]. rewrite Hsub. cbn -[is_substring].
  rewrite Hdis. cbn -[is_substring]. rewrite Hrestart.
  assert (Hassoc : ((((issued st ++ [cmd_get_net_adapter]) ++ [cmd_disable_rss]) ++
                      [cmd_restart_adapter]) ++ [cmd_show_global]
                   = issued st ++ [cmd_get_net_adapter; cmd_disable_rss;
                                   cmd_restart_adapter; cmd_show_global])%list).
  { by rewrite <- !app_assoc. }
  destruct Hr3 as [-> | [out3 ->]]; cbn -[is_substring]; rewrite Hshow;
    cbn -[is_substring]; rewrite Hassoc;
    by destruct (is_substring _ out4.1).
Qed.

End DisableRSSFacts.

(** C9: when the [Get-NetAdapter] output does not contain
    ['Red Hat VirtIO Ethernet Adapter'], [DisableRSS] raises
    [GceDriverDoesntSupportFeatureError] and the adapter query is the only
    command it has issued (neither the disable nor the restart command).
    When the output contains it, the disable command returns, the restart
    returns or raises [IOError], and the global query returns, [DisableRSS]
    has issued the four commands in order, raises
    [GceUnexpectedWindowsAdapterOutputError] exactly when the global query's
    output contains ['Receive-Side Scaling State          : enabled'], and
    returns normally otherwise. *)
Theorem DisableRSS_error_cases {Machine : Type}
    (remote : string -> Machine -> PyResult (string * string) * Machine)
    (st : RemoteState Machine) (out1 : string * string) (m1 : Machine) :
  remote cmd_get_net_adapter (machine st) = (Ok out1, m1) ->
  (is_substring "Red Hat VirtIO Ethernet Adapter" out1.1 = false ->
   DisableRSS remote st =
     (Raise driver_error,
      {| machine := m1; issued := issued st ++ [cmd_get_net_adapter] |}) /\
   state_changing cmd_get_net_adapter = false) /\
  (forall (out2 out4 : string * string) (r3 : PyResult (string * string))
          (m2 m3 m4 : Machine),
     is_substring "Red Hat VirtIO Ethernet Adapter" out1.1 = true ->
     remote cmd_disable_rss m1 = (Ok out2, m2) ->
     remote cmd_restart_adapter m2 = (r3, m3) ->
     (r3 = Raise IOError \/ exists out3, r3 = Ok out3) ->
     remote cmd_show_global m3 = (Ok out4, m4) ->
     let enabled :=
       is_substring "Receive-Side Scaling State          : enabled" out4.1 in
     (DisableRSS remote st).2 =
       {| machine := m4;
          issued := issued st ++ [cmd_get_net_adapter; cmd_disable_rss;
                                  cmd_restart_adapter; cmd_show_global] |} /\
     ((DisableRSS remote st).1 = Raise adapter_output_error <-> enabled = true) /\
     ((DisableRSS remote st).1 = Ok tt <-> enabled = false)).
Proof.
  intros Hget. split.
  - intros Hsub. split; [by apply DisableRSS_unsupported_driver with out1 | reflexivity].
  - intros out2 out4 r3 m2 m3 m4 Hsub Hdis Hrestart Hr3 Hshow enabled.
    rewrite (DisableRSS_supported_driver remote st out1 out2 out4 r3 m1 m2 m3 m4)
      by assumption.
    fold enabled. simpl. split; [reflexivity|].
    destruct enabled; split; split; (discriminate || reflexivity).
Qed.

Lemma DisableRSS_error_cases_witness :
  DisableRSS example_remote_other_driver {| machine := true; issued := [] |} =
    (Raise driver_error, {| machine := true; issued := [cmd_get_net_adapter] |}) /\
  DisableRSS example_remote {| machine := true; issued := [] |} =
    (Ok tt, {| machine := false;
               issued := [cmd_get_net_adapter; cmd_disable_rss;
                          cmd_restart_adapter; cmd_show_global] |}).
Proof.
  split.
  - apply (DisableRSS_error_cases example_remote_other_driver
             {| machine := true; issued := [] |}
             ("Ethernet  Google Ethernet Adapter  Up", EmptyString) true).
    + reflexivity.
    + reflexivity.
  - destruct (DisableRSS_error_cases example_remote
                {| machine := true; issued := [] |}
                ("Ethernet  Red Hat VirtIO Ethernet Adapter  Up", EmptyString) true
                eq_refl) as [_ Hsupported].
    destruct (Hsupported ("Ok.", EmptyString)
                ("Receive-Side Scaling State          : disabled", EmptyString)
                (Raise IOError) false false false
                eq_refl eq_refl eq_refl (or_introl eq_refl) eq_refl)
      as (Hstate & _ & Hreturns).
    destruct (DisableRSS example_remote {| machine := true; issued := [] |}) as [r st'].
    simpl in Hstate, Hreturns. rewrite Hstate.
    destruct Hreturns as [_ Hreturns]. rewrite (Hreturns eq_refl). reflexivity.
Defined.

Example DisableRSS_still_enabled :
  (DisableRSS (fun cmd m => example_remote cmd true) {| machine := true; issued := [] |}).1
  = Raise adapter_output_error.
Proof. vm_compute. reflexivity. Qed.

(** *** [GetDefaultImageFamily] *)

Lemma dict_literal_dom {V} (entries : list (string * V)) :
  dom (dict_literal entries) = list_to_set entries.*1.
Proof.
  unfold dict_literal.
  enough (Hgen : forall d : gmap string V,
            dom (fold_left (fun d kv => <[kv.1 := kv.2]> d) entries d)
            = list_to_set entries.*1 ∪ dom d).
  { rewrite Hgen, dom_empty_L. apply (right_id_L ∅ (∪)). }
  induction entries as [|[k v] entries IH]; intros d; simpl.
  - by rewrite (left_id_L ∅ (∪)).
  - rewrite IH, dom_insert_L.
    rewrite (assoc_L (∪)), (comm_L (∪) (list_to_set entries.*1) {[k]}).
    reflexivity.
Qed.

(** The lookup succeeds exactly on the keys of the class's own table, and
    leaves the instance as it is. *)
Lemma GetDefaultImageFamily_keys
    (c1 c2 c3 c4 d1 d2 d3 d4 s1 s2 s3 s4 s5 s6 : string) (self : VM) (os_type : string) :
  OS_TYPE self = PyStr os_type ->
  let table := DEFAULT_IMAGE_FAMILY c1 c2 c3 c4 d1 d2 d3 d4 s1 s2 s3 s4 s5 s6
                 (vm_class self) in
  let out := GetDefaultImageFamily c1 c2 c3 c4 d1 d2 d3 d4 s1 s2 s3 s4 s5 s6 self in
  out.2 = self /\
  ((exists family, out.1 = Ok family) <-> os_type ∈ dom table) /\
  (out.1 = Raise (KeyError (PyStr os_type)) <-> os_type ∉ dom table).
Proof.
  intros Hos table out. subst out. unfold GetDefaultImageFamily, getitem. simpl.
  rewrite Hos. fold table. split; [reflexivity|].
  rewrite elem_of_dom. destruct (table !! os_type) as [family|] eqn:Hlook.
  - split; split; try done.
    + intros _. by eexists.
    + intros Hnot. destruct Hnot. by eexists.
  - split; split; try done;
      try (by intros [family' [=]]); try (by intros _ [family' [=]]).
Qed.

Example GetDefaultImageFamily_windows2019_core :
  (GetDefaultImageFamily
     "windows2012_core" "windows2016_core" "windows2019_core" "windows2022_core"
     "windows2012_desktop" "windows2016_desktop" "windows2019_desktop"
     "windows2022_desktop" "a" "b" "c" "d" "e" "f"
     (example_vm "windows2019_core")).1 = Ok "windows-2019-core".
Proof. vm_compute. reflexivity. Qed.

(* ===================================================================== *)
(** * Further properties of the two modules                               *)
(* ===================================================================== *)

Import GceWindowsSetup.

(** ** Substring tests *)

Lemma prefix_append (needle : string) : forall hay : string,
  String.prefix needle hay = true <-> exists post, hay = String.append needle post.
Proof.
  induction needle as [|a needle IH]; intros hay.
  - split; [intros _; by exists hay|]. intros _. by destruct hay.
  - destruct hay as [|b hay]; simpl.
    + split; [discriminate | by intros [post [=]]].
    + destruct (ascii_dec a b) as [->|Hne].
      * rewrite IH. split.
        -- intros [post ->]. by exists post.
        -- intros [post [= ->]]. by exists post.
      * split; [discriminate|]. intros [post [= ? _]]. by destruct Hne.
Qed.

(** [needle in hay] holds exactly when [hay] is some text, then [needle],
    then some text. *)
Lemma is_substring_spec (needle : string) : forall hay : string,
  is_substring needle hay = true <->
  exists pre post, hay = String.append pre (String.append needle post).
Proof.
  induction hay as [|b hay IH]; cbn [is_substring]; rewrite orb_true_iff.
  - split.
    + intros [Hp | [=]]. apply prefix_append in Hp as [post ->].
      by exists EmptyString, post.
    + intros (pre & post & Heq). left. apply prefix_append.
      destruct pre; [by exists post | discriminate Heq].
  - split.
    + intros [Hp | Hs].
      * apply prefix_append in Hp as [post ->]. by exists EmptyString, post.
      * apply IH in Hs as (pre & post & ->). by exists (String b pre), post.
    + intros (pre & post & Heq). destruct pre as [|c pre]; simpl in Heq.
      * left. apply prefix_append. by exists post.
      * right. apply IH. injection Heq as _ ->. by exists pre, post.
Qed.

(** ** [DisableRSS]: every path *)

Section DisableRSSPaths.

Context {Machine : Type}.
Variable remote : string -> Machine -> PyResult (string * string) * Machine.

(** The outcome of [DisableRSS] by the answers of the four commands. *)
Lemma DisableRSS_unfold (st : RemoteState Machine) :
  DisableRSS remote st =
  let after cmds m := {| machine := m; issued := (issued st ++ cmds)%list |} in
  let verify m3 :=
    let cmds := [cmd_get_net_adapter; cmd_disable_rss; cmd_restart_adapter;
                 cmd_show_global] in
    match remote cmd_show_global m3 with
    | (Raise e, m4) => (Raise e, after cmds m4)
    | (Ok out4, m4) =>
        (if is_substring "Receive-Side Scaling State          : enabled" out4.1
         then Raise adapter_output_error else Ok tt, after cmds m4)
    end in
  match remote cmd_get_net_adapter (machine st) with
  | (Raise e, m1) => (Raise e, after [cmd_get_net_adapter] m1)
  | (Ok out1, m1) =>
      if is_substring "Red Hat VirtIO Ethernet Adapter" out1.1 then
        match remote cmd_disable_rss m1 with
        | (Raise e, m2) => (Raise e, after [cmd_get_net_adapter; cmd_disable_rss] m2)
        | (Ok _, m2) =>
            match remote cmd_restart_adapter m2 with
            | (Ok _, m3) => verify m3
            | (Raise e, m3) =>
                if decide (e = IOError) then verify m3
                else (Raise e, after [cmd_get_net_adapter; cmd_disable_rss;
                                      cmd_restart_adapter] m3)
            end
        end
      else (Raise driver_error, after [cmd_get_net_adapter] m1)
  end.
Proof.
  unfold DisableRSS, bind, RemoteCommand, raise, ret, try_except_IOError.
  destruct (remote cmd_get_net_adapter (machine st)) as [[out1|e1] m1];
    cbn -[is_substring]; [|reflexivity].
  destruct (is_substring "Red Hat VirtIO Ethernet Adapter" out1.1);
    cbn -[is_substring]; [|reflexivity].
  destruct (remote cmd_disable_rss m1) as [[out2|e2] m2];
    cbn -[is_substring]; [|by rewrite <- !app_assoc].
  destruct (remote cmd_restart_adapter m2) as [[out3|e3] m3]; cbn -[is_substring].
  - destruct (remote cmd_show_global m3) as [[out4|e4] m4]; cbn -[is_substring];
      rewrite <- !app_assoc; [|reflexivity].
    by destruct (is_substring _ out4.1).
  - destruct (decide (e3 = IOError)) as [->|Hne].
    + cbn -[is_substring].
      destruct (remote cmd_show_global m3) as [[out4|e4] m4]; cbn -[is_substring];
        rewrite <- !app_assoc; [|reflexivity].
      by destruct (is_substring _ out4.1).
    + destruct e3; try (by destruct Hne); by rewrite <- !app_assoc.
Qed.

End DisableRSSPaths.

(** Case analysis on the answers of the four commands, after unfolding
    [DisableRSS] in the goal and in the hypothesis [H]. *)
Ltac rss_answers remote st :=
  cbv zeta;
  destruct (remote cmd_get_net_adapter (machine st)) as [[?out1|?e1] ?m1] eqn:?Hget;
    [destruct (is_substring "Red Hat VirtIO Ethernet Adapter" out1.1) eqn:?Hsub;
       [destruct (remote cmd_disable_rss m1) as [[?out2|?e2] ?m2] eqn:?Hdis;
          [destruct (remote cmd_restart_adapter m2) as [[?out3|?e3] ?m3] eqn:?Hres;
             [|destruct (decide (e3 = IOError)) as [?HIO|?HIO]];
             try (destruct (remote cmd_show_global m3) as [[?out4|?e4] ?m4] eqn:?Hshow;
                  [destruct (is_substring
                               "Receive-Side Scaling State          : enabled" out4.1)
                     eqn:?Hen|])
          |]
       |]
    |].

(** [DisableRSS] returns normally only after the whole sequence: the
    adapter query answered with the VirtIO adapter in its output, the
    disable command returned, the restart returned or raised [IOError], the
    global query returned without the enabled line, and exactly these four
    commands were issued, in this order, after the earlier ones. *)
Theorem DisableRSS_returns_only_after_all_commands {Machine : Type}
    (remote : string -> Machine -> PyResult (string * string) * Machine)
    (st : RemoteState Machine) :
  (DisableRSS remote st).1 = Ok tt ->
  exists out1 m1 out2 m2 r3 m3 out4 m4,
    remote cmd_get_net_adapter (machine st) = (Ok out1, m1) /\
    is_substring "Red Hat VirtIO Ethernet Adapter" out1.1 = true /\
    remote cmd_disable_rss m1 = (Ok out2, m2) /\
    remote cmd_restart_adapter m2 = (r3, m3) /\
    (r3 = Raise IOError \/ exists out3, r3 = Ok out3) /\
    remote cmd_show_global m3 = (Ok out4, m4) /\
    is_substring "Receive-Side Scaling State          : enabled" out4.1 = false /\
    (DisableRSS remote st).2 =
      {| machine := m4;
         issued := issued st ++ [cmd_get_net_adapter; cmd_disable_rss;
                                 cmd_restart_adapter; cmd_show_global] |}.
Proof.
  rewrite (DisableRSS_unfold remote st).
  rss_answers remote st; cbn -[is_substring]; intros H; try discriminate H.
  - exists out1, m1, out2, m2, (Ok out3), m3, out4, m4.
    repeat split; try done. right. by eexists.
  - subst e3. exists out1, m1, out2, m2, (Raise IOError), m3, out4, m4.
    repeat split; try done. by left.
Qed.

Lemma DisableRSS_returns_only_after_all_commands_witness :
  exists out1 m1 out2 m2 r3 m3 out4 m4,
    example_remote cmd_get_net_adapter true = (Ok out1, m1) /\
    is_substring "Red Hat VirtIO Ethernet Adapter" out1.1 = true /\
    example_remote cmd_disable_rss m1 = (Ok out2, m2) /\
    example_remote cmd_restart_adapter m2 = (r3, m3) /\
    (r3 = Raise IOError \/ exists out3, r3 = Ok out3) /\
    example_remote cmd_show_global m3 = (Ok out4, m4) /\
    is_substring "Receive-Side Scaling State          : enabled" out4.1 = false /\
    (DisableRSS example_remote {| machine := true; issued := [] |}).2 =
      {| machine := m4;
         issued := [cmd_get_net_adapter; cmd_disable_rss;
                    cmd_restart_adapter; cmd_show_global] |}.
Proof.
  apply (DisableRSS_returns_only_after_all_commands example_remote
           {| machine := true; issued := [] |}).
  vm_compute. reflexivity.
Defined.

(** An exception of the adapter query propagates with only that command
    issued; an exception of the disable command (an [IOError] too: it is
    caught around the restart only) propagates with the restart and the
    global query never issued. *)
Theorem DisableRSS_early_failures_propagate {Machine : Type}
    (remote : string -> Machine -> PyResult (string * string) * Machine)
    (st : RemoteState Machine) (e : PyExn) :
  (forall m1,
     remote cmd_get_net_adapter (machine st) = (Raise e, m1) ->
     DisableRSS remote st =
       (Raise e, {| machine := m1; issued := issued st ++ [cmd_get_net_adapter] |})) /\
  (forall out1 m1 m2,
     remote cmd_get_net_adapter (machine st) = (Ok out1, m1) ->
     is_substring "Red Hat VirtIO Ethernet Adapter" out1.1 = true ->
     remote cmd_disable_rss m1 = (Raise e, m2) ->
     DisableRSS remote st =
       (Raise e, {| machine := m2;
                    issued := issued st ++ [cmd_get_net_adapter; cmd_disable_rss] |})).
Proof.
  split.
  - intros m1 Hget. rewrite DisableRSS_unfold. cbv zeta. by rewrite Hget.
  - intros out1 m1 m2 Hget Hsub Hdis. rewrite DisableRSS_unfold. cbv zeta.
    by rewrite Hget, Hsub, Hdis.
Qed.

Lemma DisableRSS_early_failures_propagate_witness :
  DisableRSS (fun cmd m => if bool_decide (cmd = cmd_disable_rss)
                           then (Raise IOError, m) else example_remote cmd m)
    {| machine := true; issued := [] |} =
  (Raise IOError,
   {| machine := true; issued := [cmd_get_net_adapter; cmd_disable_rss] |}).
Proof.
  destruct (DisableRSS_early_failures_propagate
              (fun cmd m => if bool_decide (cmd = cmd_disable_rss)
                            then (Raise IOError, m) else example_remote cmd m)
              {| machine := true; issued := [] |} IOError)
    as [_ Hdisable].
  apply (Hdisable ("Ethernet  Red Hat VirtIO Ethernet Adapter  Up", EmptyString)
           true true); vm_compute; reflexivity.
Defined.

(** An exception of the restart other than [IOError] propagates, and the
    global query is not issued; an exception of the global query propagates
    after all four commands. *)
Theorem DisableRSS_late_failures_propagate {Machine : Type}
    (remote : string -> Machine -> PyResult (string * string) * Machine)
    (st : RemoteState Machine) (e : PyExn)
    (out1 out2 : string * string) (m1 m2 : Machine) :
  remote cmd_get_net_adapter (machine st) = (Ok out1, m1) ->
  is_substring "Red Hat VirtIO Ethernet Adapter" out1.1 = true ->
  remote cmd_disable_rss m1 = (Ok out2, m2) ->
  (forall m3,
     remote cmd_restart_adapter m2 = (Raise e, m3) -> e <> IOError ->
     DisableRSS remote st =
       (Raise e, {| machine := m3;
                    issued := issued st ++ [cmd_get_net_adapter; cmd_disable_rss;
                                            cmd_restart_adapter] |})) /\
  (forall r3 m3 m4,
     remote cmd_restart_adapter m2 = (r3, m3) ->
     (r3 = Raise IOError \/ exists out3, r3 = Ok out3) ->
     remote cmd_show_global m3 = (Raise e, m4) ->
     DisableRSS remote st =
       (Raise e, {| machine := m4;
                    issued := issued st ++ [cmd_get_net_adapter; cmd_disable_rss;
                                            cmd_restart_adapter; cmd_show_global] |})).
Proof.
  intros Hget Hsub Hdis. split.
  - intros m3 Hres Hne. rewrite DisableRSS_unfold. cbv zeta.
    rewrite Hget, Hsub, Hdis, Hres. by destruct (decide (e = IOError)).
  - intros r3 m3 m4 Hres Hr3 Hshow. rewrite DisableRSS_unfold. cbv zeta.
    rewrite Hget, Hsub, Hdis, Hres.
    destruct Hr3 as [-> | [out3 ->]]; [rewrite decide_True by done|]; by rewrite Hshow.
Qed.

Lemma DisableRSS_late_failures_propagate_witness :
  DisableRSS (fun cmd m => if bool_decide (cmd = cmd_restart_adapter)
                           then (Raise (RemoteCommandError cmd), m)
                           else example_remote cmd m)
    {| machine := true; issued := [] |} =
  (Raise (RemoteCommandError cmd_restart_adapter),
   {| machine := false;
      issued := [cmd_get_net_adapter; cmd_disable_rss; cmd_restart_adapter] |}).
Proof.
  destruct (DisableRSS_late_failures_propagate
              (fun cmd m => if bool_decide (cmd = cmd_restart_adapter)
                            then (Raise (RemoteCommandError cmd), m)
                            else example_remote cmd m)
              {| machine := true; issued := [] |}
              (RemoteCommandError cmd_restart_adapter)
              ("Ethernet  Red Hat VirtIO Ethernet Adapter  Up", EmptyString)
              ("Ok.", EmptyString) true false)
    as [Hrestart _]; [vm_compute; reflexivity ..|].
  apply Hrestart; [vm_compute; reflexivity | discriminate].
Defined.

(** Whatever the machine answers, [DisableRSS] issues between one and four
    commands, and they are an initial part of the fixed sequence: adapter
    query, disable, restart, global query.  The earlier history is kept. *)
Theorem DisableRSS_issues_prefix {Machine : Type}
    (remote : string -> Machine -> PyResult (string * string) * Machine)
    (st : RemoteState Machine) :
  exists k, 1 <= k <= 4 /\
    issued (DisableRSS remote st).2 =
    (issued st ++ take k [cmd_get_net_adapter; cmd_disable_rss;
                          cmd_restart_adapter; cmd_show_global])%list.
Proof.
  rewrite (DisableRSS_unfold remote st).
  rss_answers remote st; cbn -[is_substring];
    first [ by (exists 4; split; [lia|])
          | by (exists 3; split; [lia|])
          | by (exists 2; split; [lia|])
          | by (exists 1; split; [lia|]) ].
Qed.

(** A command that changes the machine (the disable or the restart
    command) is issued only if the adapter query returned and its output
    reads: some text, ['Red Hat VirtIO Ethernet Adapter'], some text. *)
Theorem DisableRSS_state_change_needs_driver {Machine : Type}
    (remote : string -> Machine -> PyResult (string * string) * Machine)
    (st : RemoteState Machine) (cmd : string) :
  cmd ∈ drop (length (issued st)) (issued (DisableRSS remote st).2) ->
  state_changing cmd = true ->
  exists out1 m1 pre post,
    remote cmd_get_net_adapter (machine st) = (Ok out1, m1) /\
    out1.1 = String.append pre
               (String.append "Red Hat VirtIO Ethernet Adapter" post).
Proof.
  rewrite (DisableRSS_unfold remote st).
  rss_answers remote st; cbn -[is_substring]; rewrite drop_app_length;
    intros Hin Hchange;
    try (apply is_substring_spec in Hsub as (pre & post & Hout);
         by exists out1, m1, pre, post);
    apply list_elem_of_singleton in Hin; subst cmd; discriminate Hchange.
Qed.

Lemma DisableRSS_state_change_needs_driver_witness :
  exists out1 m1 pre post,
    example_remote cmd_get_net_adapter true = (Ok out1, m1) /\
    out1.1 = String.append pre
               (String.append "Red Hat VirtIO Ethernet Adapter" post).
Proof.
  apply (DisableRSS_state_change_needs_driver example_remote
           {| machine := true; issued := [] |} cmd_disable_rss).
  - assert (E : drop (length (issued {| machine := true; issued := [] |}))
                  (issued (DisableRSS example_remote
                             {| machine := true; issued := [] |}).2)
                = [cmd_get_net_adapter; cmd_disable_rss; cmd_restart_adapter;
                   cmd_show_global]) by (vm_compute; reflexivity).
    rewrite E. apply list_elem_of_further, list_elem_of_here.
  - reflexivity.
Defined.

(** The driver check looks for the adapter name anywhere in the output of
    the adapter query: whenever the output reads some text, the name, some
    text, the disable command is issued right after the query. *)
Theorem DisableRSS_driver_check_anywhere {Machine : Type}
    (remote : string -> Machine -> PyResult (string * string) * Machine)
    (st : RemoteState Machine) (out1 : string * string) (m1 : Machine)
    (pre post : string) :
  remote cmd_get_net_adapter (machine st) = (Ok out1, m1) ->
  out1.1 = String.append pre (String.append "Red Hat VirtIO Ethernet Adapter" post) ->
  exists rest,
    issued (DisableRSS remote st).2 =
    (issued st ++ cmd_get_net_adapter :: cmd_disable_rss :: rest)%list.
Proof.
  intros Hget Hout.
  assert (Hsub : is_substring "Red Hat VirtIO Ethernet Adapter" out1.1 = true).
  { apply is_substring_spec. by exists pre, post. }
  rewrite (DisableRSS_unfold remote st). cbv zeta. rewrite Hget, Hsub.
  destruct (remote cmd_disable_rss m1) as [[out2|e2] m2]; [|by eexists].
  destruct (remote cmd_restart_adapter m2) as [[out3|e3] m3];
    [|destruct (decide (e3 = IOError)); [|by eexists]];
    destruct (remote cmd_show_global m3) as [[out4|e4] m4]; by eexists.
Qed.

Lemma DisableRSS_driver_check_anywhere_witness :
  exists rest,
    issued (DisableRSS example_remote {| machine := true; issued := [] |}).2 =
    cmd_get_net_adapter :: cmd_disable_rss :: rest.
Proof.
  apply (DisableRSS_driver_check_anywhere example_remote
           {| machine := true; issued := [] |}
           ("Ethernet  Red Hat VirtIO Ethernet Adapter  Up", EmptyString) true
           "Ethernet  " "  Up").
  - reflexivity.
  - reflexivity.
Defined.

(** ** The image family tables *)

(** A dictionary display without repeated keys holds exactly the listed
    pairs. *)
Lemma dict_literal_list_to_map {V} (entries : list (string * V)) :
  NoDup entries.*1 -> dict_literal entries = list_to_map entries.
Proof.
  unfold dict_literal.
  enough (Hgen : forall d : gmap string V,
            NoDup entries.*1 ->
            fold_left (fun d kv => <[kv.1 := kv.2]> d) entries d
            = list_to_map entries ∪ d).
  { intros Hnd. rewrite Hgen by done. apply (right_id_L ∅ (∪)). }
  induction entries as [|[k v] entries IH]; intros d Hnd.
  - simpl. by rewrite (left_id_L ∅ (∪)).
  - rewrite fmap_cons in Hnd. apply NoDup_cons in Hnd as [Hk Hnd].
    cbn [fold_left]. rewrite IH by done. rewrite list_to_map_cons.
    rewrite <- insert_union_l. symmetry. apply insert_union_r.
    by apply not_elem_of_list_to_map_1.
Qed.

Lemma dict_literal_lookup {V} (entries : list (string * V)) (k : string) (v : V) :
  NoDup entries.*1 ->
  dict_literal entries !! k = Some v <-> (k, v) ∈ entries.
Proof.
  intros Hnd. rewrite dict_literal_list_to_map by done.
  symmetry. by apply elem_of_list_to_map.
Qed.

Section ImageFamilies.

Variables c1 c2 c3 c4 d1 d2 d3 d4 s1 s2 s3 s4 s5 s6 : string.

Local Abbreviation table := (DEFAULT_IMAGE_FAMILY c1 c2 c3 c4 d1 d2 d3 d4 s1 s2 s3 s4 s5 s6).
Local Abbreviation entries := (image_family_entries c1 c2 c3 c4 d1 d2 d3 d4 s1 s2 s3 s4 s5 s6).
Local Abbreviation family_of :=
  (GetDefaultImageFamily c1 c2 c3 c4 d1 d2 d3 d4 s1 s2 s3 s4 s5 s6).

Lemma DEFAULT_IMAGE_FAMILY_entries (cls : VmClass) :
  table cls = dict_literal (entries cls).
Proof. by destruct cls. Qed.

Lemma image_families_NoDup (cls : VmClass) : NoDup (entries cls).*2.
Proof.
  destruct cls; simpl; repeat (apply NoDup_cons; split);
    try apply NoDup_nil_2; rewrite ?elem_of_cons, elem_of_nil; intros H;
    repeat (destruct H as [H|H]; [discriminate H|]); exact H.
Qed.

Lemma GetDefaultImageFamily_lookup (self : VM) (os_type : string) :
  OS_TYPE self = PyStr os_type ->
  (family_of self).1 =
    match table (vm_class self) !! os_type with
    | Some family => Ok family
    | None => Raise (KeyError (PyStr os_type))
    end.
Proof. intros Hos. unfold GetDefaultImageFamily, getitem. simpl. by rewrite Hos. Qed.

(** [GetDefaultImageFamily] succeeds exactly on the OS types the class's
    own table names: the eight core and desktop names for
    [WindowsGceVirtualMachine], the six SQL Server names for
    [WindowsGceSqlServerVirtualMachine], whose table replaces the inherited
    one.  Any other OS type is a [KeyError]; the instance is left as it is. *)
Theorem GetDefaultImageFamily_supported_names (self : VM) (os_type : string) :
  OS_TYPE self = PyStr os_type ->
  let names :=
    match vm_class self with
    | WindowsGceVirtualMachine => [c1; c2; c3; c4; d1; d2; d3; d4]
    | WindowsGceSqlServerVirtualMachine => [s1; s2; s3; s4; s5; s6]
    end in
  ((exists family, (family_of self).1 = Ok family) <-> os_type ∈ names) /\
  ((family_of self).1 = Raise (KeyError (PyStr os_type)) <-> ~ (os_type ∈ names)) /\
  (family_of self).2 = self.
Proof.
  intros Hos names.
  assert (Hdom : forall k, k ∈ names <-> is_Some (table (vm_class self) !! k)).
  { intros k. rewrite <- elem_of_dom, DEFAULT_IMAGE_FAMILY_entries, dict_literal_dom.
    rewrite elem_of_list_to_set. subst names. by destruct (vm_class self). }
  rewrite (GetDefaultImageFamily_lookup self os_type Hos), !Hdom.
  destruct (table (vm_class self) !! os_type) as [family|].
  - split; [|split; [|reflexivity]].
    + split; [intros _; by eexists | intros _; by eexists].
    + split; [discriminate | intros Hnot; destruct Hnot; by eexists].
  - split; [|split; [|reflexivity]].
    + split; [by intros [family [=]] | by intros [family [=]]].
    + split; [by intros _ [family [=]] | reflexivity].
Qed.

(** A family found in a table comes from one of its listed pairs. *)
Lemma DEFAULT_IMAGE_FAMILY_listed (cls : VmClass) (os_type family : string) :
  table cls !! os_type = Some family -> (os_type, family) ∈ entries cls.
Proof.
  rewrite DEFAULT_IMAGE_FAMILY_entries. unfold dict_literal.
  enough (Hgen : forall (l : list (string * string)) (d : gmap string string),
            fold_left (fun d kv => <[kv.1 := kv.2]> d) l d !! os_type = Some family ->
            (os_type, family) ∈ l \/ d !! os_type = Some family).
  { intros Hlook. apply Hgen in Hlook as [Hin | Hd]; [done|].
    by rewrite lookup_empty in Hd. }
  induction l as [|[k v] l IH]; intros d Hlook; [by right|].
  cbn [fold_left] in Hlook. apply IH in Hlook as [Hin | Hd].
  - left. by apply list_elem_of_further.
  - simpl in Hd. destruct (decide (k = os_type)) as [->|Hne].
    + rewrite lookup_insert_eq in Hd. injection Hd as ->. left. apply list_elem_of_here.
    + rewrite lookup_insert_ne in Hd by done. by right.
Qed.

(** With pairwise distinct OS type names, [GetDefaultImageFamily] returns
    exactly the family the class's table lists for the instance's OS type. *)
Theorem GetDefaultImageFamily_exact (self : VM) (os_type family : string) :
  NoDup (entries (vm_class self)).*1 ->
  OS_TYPE self = PyStr os_type ->
  (family_of self).1 = Ok family <-> (os_type, family) ∈ entries (vm_class self).
Proof.
  intros Hnd Hos. rewrite (GetDefaultImageFamily_lookup self os_type Hos).
  rewrite <- dict_literal_lookup, <- DEFAULT_IMAGE_FAMILY_entries by done.
  destruct (table (vm_class self) !! os_type) as [family'|].
  - split; [by intros [= ->] | by intros [= ->]].
  - split; discriminate.
Qed.

(** Two instances of one class that get the same default image family have
    the same OS type: no two OS types of a table share a family. *)
Theorem GetDefaultImageFamily_injective (a b : VM) (os_a os_b family : string) :
  vm_class a = vm_class b ->
  OS_TYPE a = PyStr os_a -> OS_TYPE b = PyStr os_b ->
  (family_of a).1 = Ok family -> (family_of b).1 = Ok family ->
  os_a = os_b.
Proof.
  intros Hcls Ha Hb.
  rewrite (GetDefaultImageFamily_lookup a os_a Ha),
    (GetDefaultImageFamily_lookup b os_b Hb), Hcls.
  destruct (table (vm_class b) !! os_a) as [fa|] eqn:Hla; [|discriminate].
  destruct (table (vm_class b) !! os_b) as [fb|] eqn:Hlb; [|discriminate].
  intros [= ->] [= ->].
  apply DEFAULT_IMAGE_FAMILY_listed in Hla, Hlb.
  pose proof (image_families_NoDup (vm_class b)) as Hnd.
  revert Hla Hlb Hnd. generalize (entries (vm_class b)). clear.
  induction l as [|[k v] l IH]; intros Hla Hlb Hnd; [by apply elem_of_nil in Hla|].
  rewrite fmap_cons in Hnd. apply NoDup_cons in Hnd as [Hv Hnd].
  apply elem_of_cons in Hla as [Ea | Hla];
    apply elem_of_cons in Hlb as [Eb | Hlb]; simplify_eq; try done.
  - destruct Hv. apply list_elem_of_fmap. by exists (os_b, v).
  - destruct Hv. apply list_elem_of_fmap. by exists (os_a, v).
  - by apply IH.
Qed.

End ImageFamilies.

Lemma GetDefaultImageFamily_supported_names_witness :
  let self := example_vm "windows2019_core" in
  let out :=
    GetDefaultImageFamily
      "windows2012_core" "windows2016_core" "windows2019_core" "windows2022_core"
      "windows2012_desktop" "windows2016_desktop" "windows2019_desktop"
      "windows2022_desktop"
      "windows2019_sqlserver_2017_standard" "windows2019_sqlserver_2017_enterprise"
      "windows2019_sqlserver_2019_standard" "windows2019_sqlserver_2019_enterprise"
      "windows2022_sqlserver_2019_standard" "windows2022_sqlserver_2019_enterprise"
      self in
  (exists family, out.1 = Ok family) /\ out.2 = self.
Proof.
  intros self out.
  destruct (GetDefaultImageFamily_supported_names
              "windows2012_core" "windows2016_core" "windows2019_core" "windows2022_core"
              "windows2012_desktop" "windows2016_desktop" "windows2019_desktop"
              "windows2022_desktop"
              "windows2019_sqlserver_2017_standard" "windows2019_sqlserver_2017_enterprise"
              "windows2019_sqlserver_2019_standard" "windows2019_sqlserver_2019_enterprise"
              "windows2022_sqlserver_2019_standard" "windows2022_sqlserver_2019_enterprise"
              self "windows2019_core" eq_refl) as (Hok & _ & Hself).
  split; [|exact Hself].
  apply Hok. simpl. rewrite !elem_of_cons. right; right; left. reflexivity.
Defined.

Lemma GetDefaultImageFamily_exact_witness :
  (GetDefaultImageFamily "a1" "a2" "a3" "a4" "b1" "b2" "b3" "b4"
     "q1" "q2" "q3" "q4" "q5" "q6"
     {| vm_class := WindowsGceSqlServerVirtualMachine; OS_TYPE := PyStr "q4";
        boot_metadata := ∅; password := PyNone |}).1
  = Ok "sql-ent-2019-win-2019".
Proof.
  apply (GetDefaultImageFamily_exact "a1" "a2" "a3" "a4" "b1" "b2" "b3" "b4"
           "q1" "q2" "q3" "q4" "q5" "q6"
           {| vm_class := WindowsGceSqlServerVirtualMachine; OS_TYPE := PyStr "q4";
              boot_metadata := ∅; password := PyNone |} "q4").
  - apply (bool_decide_unpack _). vm_compute. reflexivity.
  - reflexivity.
  - simpl. rewrite !elem_of_cons. right; right; right; left. reflexivity.
Defined.

Lemma GetDefaultImageFamily_injective_witness : "b3" = "b3".
Proof.
  apply (GetDefaultImageFamily_injective "a1" "a2" "a3" "a4" "b1" "b2" "b3" "b4"
           "q1" "q2" "q3" "q4" "q5" "q6"
           (example_vm "b3") (example_vm "b3") "b3" "b3" "windows-2019").
  - reflexivity.
  - reflexivity.
  - reflexivity.
  - vm_compute. reflexivity.
  - vm_compute. reflexivity.
Defined.

(** ** An instance whose [OS_TYPE] is still a collection *)

(** When [self.OS_TYPE] is a list (the class-level collection of OS types
    was not replaced by one OS type), the list is in no list of names:
    [SupportGVNIC] returns [True], [GetDefaultImageProject] returns
    ['windows-cloud'], and [GetDefaultImageFamily] raises [TypeError], a
    list being unhashable. *)
Theorem list_valued_OS_TYPE
    (c1 c2 c3 c4 d1 d2 d3 d4 s1 s2 s3 s4 s5 s6 : string)
    (WINDOWS_SQLSERVER_OS_TYPES : list string) (self : VM) (collection : list string) :
  OS_TYPE self = PyStrList collection ->
  (SupportGVNIC c1 d1 self).1 = Ok true /\
  (GetDefaultImageProject WINDOWS_SQLSERVER_OS_TYPES self).1 = Ok "windows-cloud" /\
  (GetDefaultImageFamily c1 c2 c3 c4 d1 d2 d3 d4 s1 s2 s3 s4 s5 s6 self).1 =
    Raise (TypeError "unhashable type: 'list'").
Proof.
  intros Hos. split; [|split].
  - unfold SupportGVNIC, GVNIC_DISABLED_OS_TYPES, py_in. simpl. by rewrite Hos.
  - unfold GetDefaultImageProject.
    destruct (py_in (OS_TYPE self) (PyStr <$> WINDOWS_SQLSERVER_OS_TYPES)) eqn:Hin;
      [|reflexivity].
    apply py_in_strings in Hin as (s & _ & Heq). rewrite Hos in Heq. discriminate Heq.
  - unfold GetDefaultImageFamily, getitem. simpl. by rewrite Hos.
Qed.

Lemma list_valued_OS_TYPE_witness :
  let self := {| vm_class := WindowsGceVirtualMachine;
                 OS_TYPE := PyStrList ["windows2019_core"; "windows2019_desktop"];
                 boot_metadata := ∅; password := PyNone |} in
  (SupportGVNIC "windows2012_core" "windows2012_desktop" self).1 = Ok true /\
  (GetDefaultImageProject ["sql1"] self).1 = Ok "windows-cloud" /\
  (GetDefaultImageFamily "windows2012_core" "a2" "windows2019_core" "a4"
     "windows2012_desktop" "b2" "windows2019_desktop" "b4"
     "q1" "q2" "q3" "q4" "q5" "q6" self).1 =
    Raise (TypeError "unhashable type: 'list'").
Proof.
  intros self.
  apply (list_valued_OS_TYPE "windows2012_core" "a2" "windows2019_core" "a4"
           "windows2012_desktop" "b2" "windows2019_desktop" "b4"
           "q1" "q2" "q3" "q4" "q5" "q6" ["sql1"] self
           ["windows2019_core"; "windows2019_desktop"]).
  reflexivity.
Defined.

(** ** [GetDefaultImageProject] *)

(** [GetDefaultImageProject] returns ['windows-sql-cloud'] exactly when the
    instance's [OS_TYPE] is one of the names in
    [WINDOWS_SQLSERVER_OS_TYPES], whatever the instance's class, and
    ['windows-cloud'] otherwise; it never raises and leaves the instance as
    it is. *)
Theorem GetDefaultImageProject_sql_cloud
    (WINDOWS_SQLSERVER_OS_TYPES : list string) (self : VM) :
  let out := GetDefaultImageProject WINDOWS_SQLSERVER_OS_TYPES self in
  let is_sql := exists s, s ∈ WINDOWS_SQLSERVER_OS_TYPES /\ OS_TYPE self = PyStr s in
  out.2 = self /\
  (out.1 = Ok "windows-sql-cloud" <-> is_sql) /\
  (out.1 = Ok "windows-cloud" <-> ~ is_sql).
Proof.
  intros out is_sql. subst out is_sql. unfold GetDefaultImageProject.
  rewrite <- py_in_strings.
  destruct (py_in (OS_TYPE self) (PyStr <$> WINDOWS_SQLSERVER_OS_TYPES)); simpl.
  - split; [reflexivity|]. split; split; done.
  - split; [reflexivity|]. split; split; done.
Qed.

(** ** The constructors and [boot_metadata] *)

(** When the inherited constructor returns, both constructors return:
    [WindowsGceVirtualMachine] has the PowerShell startup script under
    ['windows-startup-script-ps1'], [WindowsGceSqlServerVirtualMachine] has
    it too and [BAT_SCRIPT] under ['windows-startup-script-bat'] on top; the
    base class does not touch the batch entry, every other metadata entry
    and every other attribute is as the inherited constructor left it.  An
    exception of the inherited constructor propagates from both. *)
Theorem constructors_set_startup_scripts {VmSpec : Type}
    (GceVirtualMachine_init : VmSpec -> PyResult VM)
    (STARTUP_SCRIPT : string) (vm_spec : VmSpec) :
  (forall vm0, GceVirtualMachine_init vm_spec = Ok vm0 ->
     exists base sql,
       WindowsGceVirtualMachine_init GceVirtualMachine_init STARTUP_SCRIPT vm_spec
         = Ok base /\
       WindowsGceSqlServerVirtualMachine_init GceVirtualMachine_init STARTUP_SCRIPT vm_spec
         = Ok sql /\
       boot_metadata base =
         <["windows-startup-script-ps1" := STARTUP_SCRIPT]> (boot_metadata vm0) /\
       boot_metadata sql =
         <["windows-startup-script-bat" := BAT_SCRIPT]> (boot_metadata base) /\
       boot_metadata sql !! "windows-startup-script-ps1" = Some STARTUP_SCRIPT /\
       boot_metadata sql !! "windows-startup-script-bat" = Some BAT_SCRIPT /\
       boot_metadata base !! "windows-startup-script-bat" =
         boot_metadata vm0 !! "windows-startup-script-bat" /\
       (forall key, key <> "windows-startup-script-ps1" ->
                    key <> "windows-startup-script-bat" ->
                    boot_metadata sql !! key = boot_metadata vm0 !! key) /\
       (OS_TYPE sql, password sql, vm_class sql) =
         (OS_TYPE vm0, password vm0, vm_class vm0)) /\
  (forall e, GceVirtualMachine_init vm_spec = Raise e ->
     WindowsGceVirtualMachine_init GceVirtualMachine_init STARTUP_SCRIPT vm_spec
       = Raise e /\
     WindowsGceSqlServerVirtualMachine_init GceVirtualMachine_init STARTUP_SCRIPT vm_spec
       = Raise e).
Proof.
  unfold WindowsGceSqlServerVirtualMachine_init, WindowsGceVirtualMachine_init. split.
  - intros vm0 ->. eexists _, _. split; [reflexivity|]. split; [reflexivity|]. simpl.
    split; [reflexivity|]. split; [reflexivity|].
    split; [by rewrite lookup_insert_ne, lookup_insert_eq|].
    split; [apply lookup_insert_eq|].
    split; [by rewrite lookup_insert_ne|].
    split; [|reflexivity].
    intros key Hps Hbat. by rewrite !lookup_insert_ne.
  - by intros e ->.
Qed.

Lemma constructors_set_startup_scripts_witness :
  exists base sql,
    WindowsGceVirtualMachine_init (fun os_type => Ok (example_vm os_type))
      "startup" "windows2019_core" = Ok base /\
    WindowsGceSqlServerVirtualMachine_init (fun os_type => Ok (example_vm os_type))
      "startup" "windows2019_core" = Ok sql /\
    boot_metadata sql !! "windows-startup-script-ps1" = Some "startup" /\
    boot_metadata sql !! "windows-startup-script-bat" = Some BAT_SCRIPT /\
    boot_metadata base !! "windows-startup-script-bat" = None.
Proof.
  destruct (constructors_set_startup_scripts
              (fun os_type => Ok (example_vm os_type)) "startup" "windows2019_core")
    as [Hok _].
  destruct (Hok (example_vm "windows2019_core") eq_refl)
    as (base & sql & Hb & Hs & _ & _ & Hps & Hbat & Hnone & _).
  exists base, sql. repeat split; assumption.
Defined.

(** ** [_PostCreate] and the reset-password command *)

Section PostCreateFacts.

Context {Cloud : Type}.
Variable GcloudCommand_new : VM -> list string -> GcloudCommand.
Variable IssueRetryable : GcloudCommand -> Cloud -> PyResult (string * string) * Cloud.
Variable json_loads : string -> PyResult Json.
Variable super_PostCreate : StErr (VM * Cloud) unit.
Variable subscript_error_text : PyValue -> string.
Variables name user_name : string.

Local Abbreviation post_create :=
  (_PostCreate GcloudCommand_new IssueRetryable json_loads super_PostCreate
     subscript_error_text name user_name).
Local Abbreviation reset_command :=
  (_GenerateResetPasswordCommand GcloudCommand_new name user_name).

(** [_PostCreate] by the answers of its collaborators. *)
Lemma _PostCreate_unfold (st : VM * Cloud) :
  post_create st =
  match super_PostCreate st with
  | (Raise e, st1) => (Raise e, st1)
  | (Ok _, (vm1, cloud1)) =>
      match IssueRetryable (reset_command vm1) cloud1 with
      | (Raise e, cloud2) => (Raise e, (vm1, cloud2))
      | (Ok out, cloud2) =>
          match json_loads out.1 with
          | Raise e => (Raise e, (vm1, cloud2))
          | Ok response =>
              match json_getitem subscript_error_text response "password" with
              | Raise e => (Raise e, (vm1, cloud2))
              | Ok pw => (Ok tt, (set_password pw vm1, cloud2))
              end
          end
      end
  end.
Proof.
  unfold _PostCreate, bind.
  destruct (super_PostCreate st) as [[[]|e] [vm1 cloud1]]; [|reflexivity]. simpl.
  destruct (IssueRetryable (reset_command vm1) cloud1) as [[out|e] cloud2]; reflexivity.
Qed.

End PostCreateFacts.

(** When the parent's [_PostCreate] returns, the reset-password command
    returns and its output parses to an object with a ['password'] member,
    [_PostCreate] returns with that member as the instance's password and
    nothing else of the instance changed.  The command issued is the one
    [util.GcloudCommand] built for ['compute', 'reset-windows-password',
    name], with its ['user'] flag set to the user name and its other flags
    untouched. *)
Theorem PostCreate_sets_password {Cloud : Type}
    (GcloudCommand_new : VM -> list string -> GcloudCommand)
    (IssueRetryable : GcloudCommand -> Cloud -> PyResult (string * string) * Cloud)
    (json_loads : string -> PyResult Json)
    (super_PostCreate : StErr (VM * Cloud) unit)
    (subscript_error_text : PyValue -> string)
    (name user_name : string)
    (st : VM * Cloud) (vm1 : VM) (cloud1 cloud2 : Cloud)
    (out : string * string) (members : gmap string PyValue) (pw : PyValue) :
  let cmd := _GenerateResetPasswordCommand GcloudCommand_new name user_name vm1 in
  let built := GcloudCommand_new vm1 ["compute"; "reset-windows-password"; name] in
  super_PostCreate st = (Ok tt, (vm1, cloud1)) ->
  IssueRetryable cmd cloud1 = (Ok out, cloud2) ->
  json_loads out.1 = Ok (JObject members) ->
  members !! "password" = Some pw ->
  _PostCreate GcloudCommand_new IssueRetryable json_loads super_PostCreate
    subscript_error_text name user_name st = (Ok tt, (set_password pw vm1, cloud2)) /\
  password (set_password pw vm1) = pw /\
  (OS_TYPE (set_password pw vm1), boot_metadata (set_password pw vm1),
   vm_class (set_password pw vm1)) = (OS_TYPE vm1, boot_metadata vm1, vm_class vm1) /\
  gc_args cmd = gc_args built /\
  gc_flags cmd !! "user" = Some (PyStr user_name) /\
  delete "user" (gc_flags cmd) = delete "user" (gc_flags built).
Proof.
  intros cmd built Hsuper Hissue Hjson Hpw.
  rewrite _PostCreate_unfold, Hsuper. fold cmd. rewrite Hissue, Hjson. simpl.
  rewrite Hpw. repeat split.
  - apply lookup_insert_eq.
  - apply delete_insert_eq.
Qed.

Lemma PostCreate_sets_password_witness :
  _PostCreate (fun _ args => {| gc_args := args; gc_flags := ∅ |})
    (fun _ (c : unit) => (Ok ("{...}", EmptyString), c))
    (fun _ => Ok (JObject {[ "password" := PyStr "secret" ]}))
    (ret tt) (fun _ => "not subscriptable") "vm-0" "perfkit" (example_vm "windows2019_core", tt)
  = (Ok tt, (set_password (PyStr "secret") (example_vm "windows2019_core"), tt)).
Proof.
  apply (PostCreate_sets_password
           (fun _ args => {| gc_args := args; gc_flags := ∅ |})
           (fun _ (c : unit) => (Ok ("{...}", EmptyString), c))
           (fun _ => Ok (JObject {[ "password" := PyStr "secret" ]}))
           (ret tt) (fun _ => "not subscriptable") "vm-0" "perfkit" (example_vm "windows2019_core", tt)
           (example_vm "windows2019_core") tt tt ("{...}", EmptyString)
           {[ "password" := PyStr "secret" ]} (PyStr "secret")).
  - reflexivity.
  - reflexivity.
  - reflexivity.
  - reflexivity.
Defined.

(** Whenever [_PostCreate] raises (in the parent's [_PostCreate], in the
    reset-password command, in [json.loads] or in the subscript), the
    instance is exactly as the parent's [_PostCreate] left it: the password
    is assigned only on the successful path. *)
Theorem PostCreate_failure_keeps_instance {Cloud : Type}
    (GcloudCommand_new : VM -> list string -> GcloudCommand)
    (IssueRetryable : GcloudCommand -> Cloud -> PyResult (string * string) * Cloud)
    (json_loads : string -> PyResult Json)
    (super_PostCreate : StErr (VM * Cloud) unit)
    (subscript_error_text : PyValue -> string)
    (name user_name : string) (st : VM * Cloud) (e : PyExn) :
  let out := _PostCreate GcloudCommand_new IssueRetryable json_loads super_PostCreate
               subscript_error_text name user_name st in
  out.1 = Raise e -> out.2.1 = (super_PostCreate st).2.1.
Proof.
  intros out. subst out. rewrite _PostCreate_unfold.
  destruct (super_PostCreate st) as [[[]|e0] [vm1 cloud1]]; [|done]. simpl.
  destruct (IssueRetryable _ cloud1) as [[out|e1] cloud2]; [|done].
  destruct (json_loads out.1) as [response|e2]; [|done].
  destruct (json_getitem subscript_error_text response "password") as [pw|e3];
    [discriminate|done].
Qed.

Lemma PostCreate_failure_keeps_instance_witness :
  (_PostCreate (fun _ args => {| gc_args := args; gc_flags := ∅ |})
     (fun cmd (c : unit) => (Raise (OtherError "gcloud failed"), c))
     (fun _ => Ok (JObject ∅))
     (ret tt) (fun _ => "not subscriptable") "vm-0" "perfkit" (example_vm "windows2019_core", tt)).2.1
  = example_vm "windows2019_core".
Proof.
  apply (PostCreate_failure_keeps_instance
           (fun _ args => {| gc_args := args; gc_flags := ∅ |})
           (fun cmd (c : unit) => (Raise (OtherError "gcloud failed"), c))
           (fun _ => Ok (JObject ∅))
           (ret tt) (fun _ => "not subscriptable") "vm-0" "perfkit" (example_vm "windows2019_core", tt)
           (OtherError "gcloud failed")).
  reflexivity.
Defined.

(** A response without a ['password'] member is a [KeyError] for
    ['password'], a response that is not an object a [TypeError] with the
    interpreter's message for that value; in both cases the instance is as
    the parent's [_PostCreate] left it. *)
Theorem PostCreate_malformed_response {Cloud : Type}
    (GcloudCommand_new : VM -> list string -> GcloudCommand)
    (IssueRetryable : GcloudCommand -> Cloud -> PyResult (string * string) * Cloud)
    (json_loads : string -> PyResult Json)
    (super_PostCreate : StErr (VM * Cloud) unit)
    (subscript_error_text : PyValue -> string)
    (name user_name : string)
    (st : VM * Cloud) (vm1 : VM) (cloud1 cloud2 : Cloud)
    (out : string * string) (response : Json) :
  super_PostCreate st = (Ok tt, (vm1, cloud1)) ->
  IssueRetryable (_GenerateResetPasswordCommand GcloudCommand_new name user_name vm1)
    cloud1 = (Ok out, cloud2) ->
  json_loads out.1 = Ok response ->
  let result := _PostCreate GcloudCommand_new IssueRetryable json_loads
                  super_PostCreate subscript_error_text name user_name st in
  (forall members, response = JObject members -> members !! "password" = None ->
     result = (Raise (KeyError (PyStr "password")), (vm1, cloud2))) /\
  (forall v, response = JOther v ->
     result = (Raise (TypeError (subscript_error_text v)), (vm1, cloud2))).
Proof.
  intros Hsuper Hissue Hjson result. subst result.
  rewrite _PostCreate_unfold, Hsuper, Hissue, Hjson. split.
  - intros members -> Hnone. simpl. by rewrite Hnone.
  - by intros v ->.
Qed.

Lemma PostCreate_malformed_response_witness :
  _PostCreate (fun _ args => {| gc_args := args; gc_flags := ∅ |})
    (fun _ (c : unit) => (Ok ("{}", EmptyString), c))
    (fun _ => Ok (JObject ∅))
    (ret tt) (fun _ => "not subscriptable") "vm-0" "perfkit"
    (example_vm "windows2019_core", tt)
  = (Raise (KeyError (PyStr "password")), (example_vm "windows2019_core", tt)) /\
  _PostCreate (fun _ args => {| gc_args := args; gc_flags := ∅ |})
    (fun _ (c : unit) => (Ok ("null", EmptyString), c))
    (fun _ => Ok (JOther PyNone))
    (ret tt) (fun _ => "not subscriptable") "vm-0" "perfkit"
    (example_vm "windows2019_core", tt)
  = (Raise (TypeError "not subscriptable"), (example_vm "windows2019_core", tt)).
Proof.
  split.
  - destruct (PostCreate_malformed_response
                (fun _ args => {| gc_args := args; gc_flags := ∅ |})
                (fun _ (c : unit) => (Ok ("{}", EmptyString), c))
                (fun _ => Ok (JObject ∅))
                (ret tt) (fun _ => "not subscriptable") "vm-0" "perfkit"
                (example_vm "windows2019_core", tt)
                (example_vm "windows2019_core") tt tt ("{}", EmptyString) (JObject ∅)
                eq_refl eq_refl eq_refl) as [Hmissing _].
    apply (Hmissing ∅); reflexivity.
  - destruct (PostCreate_malformed_response
                (fun _ args => {| gc_args := args; gc_flags := ∅ |})
                (fun _ (c : unit) => (Ok ("null", EmptyString), c))
                (fun _ => Ok (JOther PyNone))
                (ret tt) (fun _ => "not subscriptable") "vm-0" "perfkit"
                (example_vm "windows2019_core", tt)
                (example_vm "windows2019_core") tt tt ("null", EmptyString)
                (JOther PyNone) eq_refl eq_refl eq_refl) as [_ Hother].
    apply (Hother PyNone). reflexivity.
Defined.

(** ** [_ApplyFlags]: failures and repetition *)

(** When the parent's [_ApplyFlags] raises, the exception propagates, the
    dictionary is as the parent left it, and the flag is never consulted:
    the outcome is the same whatever [FLAGS] holds, even with the flag
    undefined. *)
Theorem ApplyFlags_parent_exception_propagates
    (super_ApplyFlags : PyDict -> FlagValues -> PyResult unit * PyDict)
    (FLAGS flag_values : FlagValues) (config config1 : PyDict) (e : PyExn) :
  super_ApplyFlags config flag_values = (Raise e, config1) ->
  _ApplyFlags super_ApplyFlags FLAGS flag_values {| config_values := config; log := [] |}
  = (Raise e, {| config_values := config1;
                 log := [EvSuperApplyFlags config flag_values] |}).
Proof. intros Hsuper. rewrite _ApplyFlags_unfold. simpl. by rewrite Hsuper. Qed.

Lemma ApplyFlags_parent_exception_propagates_witness :
  _ApplyFlags (fun config _ => (Raise (OtherError "bad flags"), <["seen" := PyBool true]> config))
    (FLAGS_with_style "spread") ∅ {| config_values := ∅; log := [] |}
  = (Raise (OtherError "bad flags"),
     {| config_values := {[ "seen" := PyBool true ]};
        log := [EvSuperApplyFlags ∅ ∅] |}).
Proof.
  apply (ApplyFlags_parent_exception_propagates
           (fun config _ => (Raise (OtherError "bad flags"), <["seen" := PyBool true]> config))
           (FLAGS_with_style "spread") ∅ ∅ {[ "seen" := PyBool true ]}
           (OtherError "bad flags")).
  reflexivity.
Defined.

(** With the flag not defined in [FLAGS], [_ApplyFlags] raises
    [AttributeError] after the parent has run: what the parent wrote into
    the dictionary stays, and nothing is assigned by the method itself. *)
Theorem ApplyFlags_undefined_flag
    (super_ApplyFlags : PyDict -> FlagValues -> PyResult unit * PyDict)
    (FLAGS flag_values : FlagValues) (config config1 : PyDict) :
  super_ApplyFlags config flag_values = (Ok tt, config1) ->
  FLAGS !! "placement_group_style" = None ->
  _ApplyFlags super_ApplyFlags FLAGS flag_values {| config_values := config; log := [] |}
  = (Raise (AttributeError "placement_group_style"),
     {| config_values := config1; log := [EvSuperApplyFlags config flag_values] |}).
Proof.
  intros Hsuper Hflag. rewrite _ApplyFlags_unfold. simpl. by rewrite Hsuper, Hflag.
Qed.

Lemma ApplyFlags_undefined_flag_witness :
  _ApplyFlags super_ApplyFlags_pass ∅ ∅
    {| config_values := {[ "zone" := PyStr "us-central1-a" ]}; log := [] |}
  = (Raise (AttributeError "placement_group_style"),
     {| config_values := {[ "zone" := PyStr "us-central1-a" ]};
        log := [EvSuperApplyFlags {[ "zone" := PyStr "us-central1-a" ]} ∅] |}).
Proof.
  apply (ApplyFlags_undefined_flag super_ApplyFlags_pass ∅ ∅
           {[ "zone" := PyStr "us-central1-a" ]} {[ "zone" := PyStr "us-central1-a" ]}).
  - reflexivity.
  - reflexivity.
Defined.

(** Applying the flags a second time changes nothing: if [_ApplyFlags]
    returned with the dictionary [config'] and the parent leaves [config']
    alone, running the method on [config'] returns with [config'] again. *)
Theorem ApplyFlags_idempotent
    (super_ApplyFlags : PyDict -> FlagValues -> PyResult unit * PyDict)
    (FLAGS flag_values : FlagValues) (config config' : PyDict) :
  run_ApplyFlags super_ApplyFlags FLAGS flag_values config = (Ok tt, config') ->
  super_ApplyFlags config' flag_values = (Ok tt, config') ->
  run_ApplyFlags super_ApplyFlags FLAGS flag_values config' = (Ok tt, config').
Proof.
  rewrite !run_ApplyFlags_layered. unfold ApplyFlags_layered, own_override.
  intros Hfirst ->.
  destruct (super_ApplyFlags config flag_values) as [[[]|e] config1]; [|discriminate].
  destruct (FLAGS !! "placement_group_style") as [f|]; [|discriminate].
  destruct (truthy (flag_value f)); [|done].
  injection Hfirst as <-. by rewrite insert_insert_eq.
Qed.

Lemma ApplyFlags_idempotent_witness :
  run_ApplyFlags super_ApplyFlags_pass (FLAGS_with_style "spread") ∅
    {[ "placement_group_style" := PyStr "spread" ]}
  = (Ok tt, {[ "placement_group_style" := PyStr "spread" ]}).
Proof.
  apply (ApplyFlags_idempotent super_ApplyFlags_pass (FLAGS_with_style "spread") ∅
           {[ "placement_group_style" := PyStr "cluster" ]}
           {[ "placement_group_style" := PyStr "spread" ]}).
  - vm_compute. reflexivity.
  - reflexivity.
Defined.

(** ** [_GetOptionDecoderConstructions] applied again *)

(** Extending a mapping that already carries the extension changes nothing,
    and the extension adds exactly one option unless the parent already
    declares [zone]. *)
Theorem GetOptionDecoderConstructions_idempotent (super_decoders : Constructions) :
  _GetOptionDecoderConstructions (_GetOptionDecoderConstructions super_decoders)
    = _GetOptionDecoderConstructions super_decoders /\
  size (_GetOptionDecoderConstructions super_decoders) =
    match super_decoders !! "zone" with
    | Some _ => size super_decoders
    | None => S (size super_decoders)
    end.
Proof.
  unfold _GetOptionDecoderConstructions, dict_update.
  rewrite <- !insert_union_singleton_l. split.
  - apply insert_insert_eq.
  - destruct (super_decoders !! "zone") as [c|] eqn:Hzone.
    + apply map_size_insert_Some. by eexists.
    + by apply map_size_insert_None.
Qed.

(** ** [BasePlacementGroup.__init__]: the store around the new object *)

(** A spec object without a [zone] attribute makes the constructor raise
    [AttributeError]; the objects that were live before are unchanged. *)
Theorem BasePlacementGroup_missing_zone
    (base_attrs : PyDict) (h : Heap) (s : loc) (sd : PyDict) :
  h !! s = Some sd ->
  sd !! "zone" = None ->
  exists h',
    BasePlacementGroup base_attrs s h = (Raise (AttributeError "zone"), h') /\
    forall a, is_Some (h !! a) -> h' !! a = h !! a.
Proof.
  intros Hs Hz.
  assert (Hfresh : fresh (dom h) <> s).
  { intros Heq. pose proof (fresh_not_live h) as Hf. rewrite Heq, Hs in Hf. discriminate. }
  unfold BasePlacementGroup, __init__, bind, alloc, super_init, getattr_obj.
  rewrite lookup_alter_ne, lookup_insert_ne by done. rewrite Hs. simpl. rewrite Hz.
  eexists. split; [reflexivity|].
  intros a [d Ha].
  assert (Hne : fresh (dom h) <> a).
  { intros Heq. pose proof (fresh_not_live h) as Hf. rewrite Heq, Ha in Hf. discriminate. }
  by rewrite lookup_alter_ne, lookup_insert_ne.
Qed.

Lemma BasePlacementGroup_missing_zone_witness :
  exists h',
    BasePlacementGroup example_base_attrs 1%positive
      {[ 1%positive := ({[ "region" := PyStr "us-central1" ]} : PyDict) ]}
    = (Raise (AttributeError "zone"), h') /\
    forall a,
      is_Some (({[ 1%positive := ({[ "region" := PyStr "us-central1" ]} : PyDict) ]}
                : Heap) !! a) ->
      h' !! a =
      ({[ 1%positive := ({[ "region" := PyStr "us-central1" ]} : PyDict) ]} : Heap) !! a.
Proof.
  apply (BasePlacementGroup_missing_zone example_base_attrs
           {[ 1%positive := ({[ "region" := PyStr "us-central1" ]} : PyDict) ]}
           1%positive {[ "region" := PyStr "us-central1" ]}).
  - reflexivity.
  - reflexivity.
Defined.

(** The constructor adds exactly one object to the store and leaves every
    other object as it was.  The new object carries the attributes of the
    parent constructor, with [zone] set to the spec's value (over a [zone]
    the parent may have set), whatever kind of value that is. *)
Theorem BasePlacementGroup_frame
    (base_attrs : PyDict) (h : Heap) (s : loc) (sd : PyDict) (z : PyValue) :
  h !! s = Some sd ->
  sd !! "zone" = Some z ->
  exists self h' d,
    BasePlacementGroup base_attrs s h = (Ok self, h') /\
    ~ (self ∈ dom h) /\
    dom h' = {[ self ]} ∪ dom h /\
    (forall a, a <> self -> h' !! a = h !! a) /\
    h' !! self = Some d /\
    d !! "zone" = Some z /\
    (forall name, name <> "zone" -> d !! name = base_attrs !! name).
Proof.
  intros Hs Hz.
  exists (fresh (dom h)), (<[fresh (dom h) := <["zone" := z]> base_attrs]> h),
    (<["zone" := z]> base_attrs).
  split; [by apply BasePlacementGroup_unfold with sd|].
  split; [apply is_fresh|].
  split; [apply dom_insert_L|].
  split; [intros a Hne; by rewrite lookup_insert_ne|].
  split; [apply lookup_insert_eq|].
  split; [apply lookup_insert_eq|].
  intros name Hne. by rewrite lookup_insert_ne.
Qed.

Lemma BasePlacementGroup_frame_witness :
  exists self h' d,
    BasePlacementGroup example_base_attrs 1%positive example_heap = (Ok self, h') /\
    ~ (self ∈ dom example_heap) /\
    dom h' = {[ self ]} ∪ dom example_heap /\
    (forall a, a <> self -> h' !! a = example_heap !! a) /\
    h' !! self = Some d /\
    d !! "zone" = Some (PyStr "us-central1-a") /\
    (forall name, name <> "zone" -> d !! name = example_base_attrs !! name).
Proof.
  apply (BasePlacementGroup_frame example_base_attrs example_heap 1%positive
           {[ "zone" := PyStr "us-central1-a" ]} (PyStr "us-central1-a")).
  - reflexivity.
  - reflexivity.
Defined.

(** Two placement groups built from one spec are two distinct objects with
    equal attributes, and they share nothing: assigning an attribute of the
    first leaves the second as it is. *)
Theorem BasePlacementGroup_twice
    (base_attrs : PyDict) (h : Heap) (s : loc) (sd : PyDict) (z : PyValue) :
  h !! s = Some sd ->
  sd !! "zone" = Some z ->
  exists r1 h1 r2 h2 d,
    BasePlacementGroup base_attrs s h = (Ok r1, h1) /\
    BasePlacementGroup base_attrs s h1 = (Ok r2, h2) /\
    r1 <> r2 /\
    h2 !! r1 = Some d /\ h2 !! r2 = Some d /\
    d !! "zone" = Some z /\
    forall name v, (setattr_obj r1 name v h2).2 !! r2 = Some d.
Proof.
  intros Hs Hz.
  set (r1 := fresh (dom h)).
  set (d := <["zone" := z]> base_attrs).
  set (h1 := <[r1 := d]> h).
  assert (Hr1 : r1 <> s).
  { intros Heq. pose proof (fresh_not_live h) as Hf. fold r1 in Hf.
    rewrite Heq, Hs in Hf. discriminate. }
  assert (Hs1 : h1 !! s = Some sd) by (subst h1; by rewrite lookup_insert_ne).
  set (r2 := fresh (dom h1)).
  assert (Hr12 : r1 <> r2).
  { intros Heq. pose proof (fresh_not_live h1) as Hf. fold r2 in Hf.
    rewrite <- Heq in Hf. subst h1. rewrite lookup_insert_eq in Hf. discriminate. }
  exists r1, h1, r2, (<[r2 := d]> h1), d.
  split; [by apply BasePlacementGroup_unfold with sd|].
  split; [by apply BasePlacementGroup_unfold with sd|].
  split; [done|].
  split; [rewrite lookup_insert_ne by done; subst h1; apply lookup_insert_eq|].
  split; [apply lookup_insert_eq|].
  split; [subst d; apply lookup_insert_eq|].
  intros name v. unfold setattr_obj. simpl.
  rewrite lookup_alter_ne by done. apply lookup_insert_eq.
Qed.

Lemma BasePlacementGroup_twice_witness :
  exists r1 h1 r2 h2 d,
    BasePlacementGroup example_base_attrs 1%positive example_heap = (Ok r1, h1) /\
    BasePlacementGroup example_base_attrs 1%positive h1 = (Ok r2, h2) /\
    r1 <> r2 /\
    h2 !! r1 = Some d /\ h2 !! r2 = Some d /\
    d !! "zone" = Some (PyStr "us-central1-a") /\
    forall name v, (setattr_obj r1 name v h2).2 !! r2 = Some d.
Proof.
  apply (BasePlacementGroup_twice example_base_attrs example_heap 1%positive
           {[ "zone" := PyStr "us-central1-a" ]} (PyStr "us-central1-a")).
  - reflexivity.
  - reflexivity.
Defined.
